(** * Aura_Map: scan orchestration and result parsing

    A shallow embedding of the Python sources [backend/app.py],
    [backend/nmap_scanner.py] and [backend/config.py]: target expansion
    ([IPProcessor]), the nmap command builder, the in-flight scan registry
    with its cancel path and its sweep, the XML result parser, the session
    loop [scan_ip_list], the aggregation of stored results and the
    configuration tree.

    Conventions.
    - Python [str] values are Rocq [string]s (ASCII text).
    - A Python [dict] whose keys are decided at run time is an insertion
      ordered association list ([pydict]); the registry [active_scans],
      which is only looked up, inserted into and deleted from, is a [gmap].
    - A call that can raise returns [res]; [except Exception] is a match
      on it.
    - What the operating system, the clock, the file system and the XML
      library answer is an explicit argument of the function that asks.
    - The registry is shared between the scan thread and the thread that
      cancels.  What the other thread does to it is part of that argument,
      at the two places where a call blocks: [process.communicate()] in
      [scan_single_ip] and [time.sleep(1)] in [cancel_scan]. *)

From Stdlib Require Import ZArith String Ascii List DecimalString DecimalPos DecimalZ Lia.
From Stdlib Require QArith_base.
From stdpp Require Import gmap strings list.

Set Warnings "-register-all".

Local Open Scope string_scope.
Local Open Scope list_scope.
Local Open Scope Z_scope.

(** ** Exceptions *)

Inductive res (A : Type) : Type :=
| Ok (a : A)
| Raise (msg : string).
Arguments Ok {A} a.
Arguments Raise {A} msg.

#[global] Instance res_ret : MRet res := fun _ a => Ok a.
#[global] Instance res_bind : MBind res := fun _ _ k m =>
  match m with
  | Ok a => k a
  | Raise e => Raise e
  end.

(** ** Python floats *)

Module PyFloat.

(** A finite float is a rational number; [time.time()] answers no other. *)
Definition float : Type := QArith_base.Q.

(** [int(x)] for a float: the fraction is cut off, toward zero. *)
Definition int_of_float (x : float) : Z :=
  Z.quot (QArith_base.Qnum x) (Z.pos (QArith_base.Qden x)).

End PyFloat.

(** ** Python string primitives *)

Module PyStr.

(** [c in s] for a one-character [c]. *)
Fixpoint contains (c : ascii) (s : string) : bool :=
  match s with
  | EmptyString => false
  | String d s' => if Ascii.eqb d c then true else contains c s'
  end.

(** [s.startswith(c)] for a one-character [c]. *)
Definition startswith (c : ascii) (s : string) : bool :=
  match s with
  | String d _ => Ascii.eqb d c
  | EmptyString => false
  end.

(** [s.split(sep)] for a one-character separator: never the empty list. *)
Fixpoint split (sep : ascii) (s : string) : list string :=
  match s with
  | EmptyString => [EmptyString]
  | String c s' =>
      if Ascii.eqb c sep then EmptyString :: split sep s'
      else match split sep s' with
           | h :: t => String c h :: t
           | [] => [String c EmptyString]
           end
  end.

(** [s.split(sep, 1)]: one element when [sep] does not occur, else two. *)
Fixpoint split1 (sep : ascii) (s : string) : list string :=
  match s with
  | EmptyString => [EmptyString]
  | String c s' =>
      if Ascii.eqb c sep then [EmptyString; s']
      else match split1 sep s' with
           | h :: t => String c h :: t
           | [] => [String c EmptyString]
           end
  end.

(** [sep.join(l)]. *)
Fixpoint join (sep : string) (l : list string) : string :=
  match l with
  | [] => EmptyString
  | [x] => x
  | x :: l' => x +:+ sep +:+ join sep l'
  end.

(** [s.replace(c, d)] for one-character [c] and [d]. *)
Fixpoint replace (c d : ascii) (s : string) : string :=
  match s with
  | EmptyString => EmptyString
  | String x s' => String (if Ascii.eqb x c then d else x) (replace c d s')
  end.

(** [str.isspace] on the ASCII range: TAB..CR, FS..US and the blank. *)
Definition isspace (c : ascii) : bool :=
  let n := nat_of_ascii c in
  ((9 <=? n)%nat && (n <=? 13)%nat) || ((28 <=? n)%nat && (n <=? 32)%nat).

Fixpoint lstrip (s : string) : string :=
  match s with
  | String c s' => if isspace c then lstrip s' else s
  | EmptyString => EmptyString
  end.

Definition rev (s : string) : string :=
  string_of_list_ascii (List.rev (list_ascii_of_string s)).

Definition rstrip (s : string) : string := rev (lstrip (rev s)).

(** [s.strip()]. *)
Definition strip (s : string) : string := rstrip (lstrip s).

(** [bool(s)]: a string is truthy when it is not empty. *)
Definition truthy (s : string) : bool :=
  match s with EmptyString => false | _ => true end.

Definition isdigit (c : ascii) : bool :=
  let n := nat_of_ascii c in (48 <=? n)%nat && (n <=? 57)%nat.

Fixpoint all_digits (s : string) : bool :=
  match s with
  | EmptyString => true
  | String c s' => isdigit c && all_digits s'
  end.

(** Value of a string of ASCII digits, most significant first. *)
Fixpoint digits_value (acc : Z) (s : string) : Z :=
  match s with
  | EmptyString => acc
  | String c s' => digits_value (10 * acc + (Z.of_nat (nat_of_ascii c) - 48)) s'
  end.

(** [str(n)] for an integer. *)
Definition of_Z (n : Z) : string := NilZero.string_of_int (Z.to_int n).

End PyStr.

(** ** IPProcessor (app.py) *)

Module IPProcessor.
Import PyStr.

Definition ALL_ONES : Z := 4294967295.

(** [ipaddress.IPv4Address._parse_octet]: a non-empty run of at most three
    ASCII digits, no leading zero unless the octet is "0", value at most
    255. *)
Definition parse_octet (o : string) : res Z :=
  match o with
  | EmptyString => Raise "Empty octet not permitted"
  | String c0 _ =>
      if negb (all_digits o) then Raise "Only decimal digits permitted"
      else if (3 <? String.length o)%nat then Raise "At most 3 characters permitted"
      else if negb (String.eqb o "0") && Ascii.eqb c0 "0" then
             Raise "Leading zeros are not permitted"
      else let v := digits_value 0 o in
           if 255 <? v then Raise "Octet > 255 not permitted" else Ok v
  end.

(** [ipaddress.ip_address] on text without a colon: a dotted quad, whose
    value is the 32-bit address, or no address at all ([IPv6Address]
    refuses every text with fewer than two colons).  IPv6 literals are
    outside this model, which answers [Raise] for them: what is proved of
    [expand_range] is proved of lines whose bounds are read as dotted
    quads, or of lines without a colon. *)
Definition ip_address (s : string) : res Z :=
  if contains "/" s then Raise "Unexpected '/'" else
  match s with
  | EmptyString => Raise "Address cannot be empty"
  | _ =>
      match split "." s with
      | [a; b; c; d] =>
          a ← parse_octet a; b ← parse_octet b;
          c ← parse_octet c; d ← parse_octet d;
          Ok (Z.lor (Z.shiftl a 24) (Z.lor (Z.shiftl b 16) (Z.lor (Z.shiftl c 8) d)))
      | _ => Raise "Expected 4 octets"
      end
  end.

(** [str(ip)]. *)
Definition ip_str (ip : Z) : string :=
  join "." (map (fun sh => of_Z (Z.land (Z.shiftr ip sh) 255)) [24; 16; 8; 0]).

(** [ip + 1]: the constructor refuses a value above 255.255.255.255. *)
Definition ip_succ (ip : Z) : res Z :=
  if ALL_ONES <? ip + 1 then Raise "Address out of range" else Ok (ip + 1).

(** [l[-1] = x] on a non-empty list. *)
Fixpoint set_last (l : list string) (x : string) : list string :=
  match l with
  | [] => []
  | [_] => [x]
  | y :: l' => y :: set_last l' x
  end.

(** Lines 172-187 of [expand_range]: the two bounds of the range. *)
Definition range_bounds (ip_range : string) : res (Z * Z) :=
  match split1 "-" ip_range with
  | [start_ip; end_part] =>
      let start_ip := strip start_ip in
      let end_part := strip end_part in
      if contains "." end_part then
        start ← ip_address start_ip;
        end_ ← ip_address end_part;
        Ok (start, end_)
      else
        let ip_parts := split "." start_ip in
        let ip_parts := set_last ip_parts end_part in
        let end_ip := join "." ip_parts in
        start ← ip_address start_ip;
        end_ ← ip_address end_ip;
        Ok (start, end_)
  | _ => Raise "not enough values to unpack"
  end.

(** The [while current <= end] loop, lines 189-195.  Every turn appends
    one address and the loop leaves once the list is longer than 1000, so
    it takes at most 1001 turns; [None] says that [fuel] turns were not
    enough. *)
Fixpoint range_loop (fuel : nat) (end_ current : Z) (ips : list string)
  : option (res (list string)) :=
  if current <=? end_ then
    match fuel with
    | O => None
    | S fuel' =>
        let ips := ips ++ [ip_str current] in
        match ip_succ current with
        | Raise e => Some (Raise e)
        | Ok current =>
            if (1000 <? length ips)%nat then Some (Ok ips)
            else range_loop fuel' end_ current ips
        end
    end
  else Some (Ok ips).

Definition range_fuel : nat := 1001.

(** [IPProcessor.expand_range]. *)
Definition expand_range (ip_range : string) : list string :=
  if negb (contains "-" ip_range) then [ip_range] else
  match range_bounds ip_range with
  | Raise _ => [ip_range]
  | Ok (start, end_) =>
      match range_loop range_fuel end_ start [] with
      | Some (Ok ips) => ips
      | Some (Raise _) => [ip_range]
      | None => [ip_range]
      end
  end.

(** A target as [process_input] hands it on: [{'ip': ..., 'ports': [...]}]. *)
Record target := Target { ip : string; ports : list string }.

(** [IPProcessor.parse_ip_with_ports]. *)
Definition parse_ip_with_ports (ip_port : string) : target :=
  if negb (contains ":" ip_port) then Target (strip ip_port) [] else
  match split1 ":" ip_port with
  | [ip; ports_str] =>
      let ports :=
        map strip (filter (fun p => truthy (strip p) = true) (split "," ports_str)) in
      Target (strip ip) ports
  | _ => Target (strip ip_port) []
  end.

(** The lines [process_input] walks over: stripped, empty ones dropped. *)
Definition input_lines (input_text : string) : list string :=
  map strip (filter (fun line => truthy (strip line) = true) (split "010" input_text)).

Section ProcessInput.

(** [IPProcessor.expand_cidr] rests on [ipaddress.ip_network], which is not
    modelled; the dispatch below holds for whatever list it answers. *)
Variable expand_cidr : string -> list string.

(** The body of the [for line in lines] loop of [process_input]. *)
Definition process_line (line : string) : list target :=
  if contains "/" line then
    map (fun ip => Target ip []) (expand_cidr line)
  else if contains "-" line && negb (startswith "-" line) then
    map (fun ip => Target ip []) (expand_range line)
  else if contains ":" line then
    [parse_ip_with_ports line]
  else
    [Target line []].

Definition process_lines (lines : list string) : list target :=
  fold_left (fun ip_list line => ip_list ++ process_line line) lines [].

(** [IPProcessor.process_input]. *)
Definition process_input (input_text : string) : list target :=
  process_lines (input_lines input_text).

End ProcessInput.

End IPProcessor.

(** ** Python values and dictionaries *)

Inductive pyval : Type :=
| PyNone
| PyInt (n : Z)
| PyStr (s : string)
| PyList (l : list pyval)
| PyDict (d : list (string * pyval)).

Abbreviation pydict := (list (string * pyval)).

Module Dict.

(** [d.get(k)]. *)
Fixpoint get (k : string) (d : pydict) : option pyval :=
  match d with
  | [] => None
  | (k', v) :: d' => if String.eqb k' k then Some v else get k d'
  end.

(** [k in d]. *)
Definition mem (k : string) (d : pydict) : bool :=
  match get k d with Some _ => true | None => false end.

(** [d[k] = v]: a key already there keeps its place. *)
Fixpoint set (k : string) (v : pyval) (d : pydict) : pydict :=
  match d with
  | [] => [(k, v)]
  | (k', v') :: d' =>
      if String.eqb k' k then (k, v) :: d' else (k', v') :: set k v d'
  end.

(** [d.update(u)]. *)
Definition update (u d : pydict) : pydict :=
  fold_left (fun d kv => set kv.1 kv.2 d) u d.

End Dict.

(** ** ElementTree *)

Module ET.

Inductive element : Type :=
| Element (tag : string) (attrib : list (string * string))
          (text : option string) (children : list element).

Definition tag (e : element) : string := let 'Element t _ _ _ := e in t.
Definition attrib (e : element) := let 'Element _ a _ _ := e in a.
Definition text (e : element) : option string := let 'Element _ _ t _ := e in t.
Definition children (e : element) : list element := let 'Element _ _ _ c := e in c.

(** [e.findall(t)] for a plain tag name: the children with that tag. *)
Definition findall (t : string) (e : element) : list element :=
  filter (fun c => String.eqb (tag c) t = true) (children e).

(** [e.find(t)]: the first such child. *)
Definition find (t : string) (e : element) : option element :=
  head (findall t e).

(** [e.findall('a/b')]. *)
Definition findall2 (a b : string) (e : element) : list element :=
  concat (map (findall b) (findall a e)).

(** [e.iter(t)]: every node below [e], [e] included, with the given
    tag, in document order. *)
Fixpoint iter (t : string) (e : element) : list element :=
  let 'Element t' _ _ c := e in
  (if String.eqb t' t then [e] else []) ++ flat_map (iter t) c.

Fixpoint lookup_attr (k : string) (a : list (string * string)) : option string :=
  match a with
  | [] => None
  | (k', v) :: a' => if String.eqb k' k then Some v else lookup_attr k a'
  end.

(** [e.get(k)]: [None] when the attribute is missing. *)
Definition get (e : element) (k : string) : pyval :=
  match lookup_attr k (attrib e) with Some v => PyStr v | None => PyNone end.

(** [e.get(k, d)] with a string default. *)
Definition get_d (e : element) (k d : string) : pyval :=
  PyStr (default d (lookup_attr k (attrib e))).

(** [e.text]. *)
Definition text_val (e : element) : pyval :=
  match text e with Some v => PyStr v | None => PyNone end.

(** What [ET.parse(xml_file).getroot()] answers: the root element, or the
    exception raised when the file cannot be read or is not well-formed. *)
Definition parsed := res element.

End ET.

(** ** The result parser of app.py *)

Module AppParser.
Import ET.

(** One entry of [result['hostnames']]. *)
Definition hostname_entry (hostname : element) : pyval :=
  PyDict [("name", get hostname "name"); ("type", get hostname "type")].

(** One entry of [port_data['scripts']]. *)
Definition script_entry (script : element) : pyval :=
  PyDict [("id", get script "id"); ("output", get_d script "output" "")].

(** [port_data] for one [port] node, lines 434-458. *)
Definition port_entry (port : element) : pydict :=
  let port_data :=
    [("port", get port "portid");
     ("protocol", get port "protocol");
     ("state", match find "state" port with
               | Some st => get st "state"
               | None => PyStr "unknown"
               end)] in
  let port_data :=
    match find "service" port with
    | Some service =>
        Dict.update [("service", get_d service "name" "");
                     ("version", get_d service "version" "");
                     ("product", get_d service "product" "");
                     ("extrainfo", get_d service "extrainfo" "")] port_data
    | None => port_data
    end in
  match findall "script" port with
  | [] => port_data
  | scripts => Dict.set "scripts" (PyList (map script_entry scripts)) port_data
  end.

(** [port_data['state'] == 'open']. *)
Definition state_is_open (port_data : pydict) : bool :=
  match Dict.get "state" port_data with
  | Some (PyStr s) => String.eqb s "open"
  | _ => false
  end.

(** The [for port in ports.findall('port')] loop: the state is
    [(result['services'], result['open_ports'])]. *)
Definition ports_loop (ports : list element) (st : list pyval * Z)
  : list pyval * Z :=
  fold_left
    (fun st port =>
       let port_data := port_entry port in
       (st.1 ++ [PyDict port_data],
        if state_is_open port_data then st.2 + 1 else st.2))
    ports st.

Definition initial_result : pydict :=
  [("host_status", PyStr "down");
   ("open_ports", PyInt 0);
   ("services", PyList []);
   ("os_info", PyStr "");
   ("hostnames", PyList []);
   ("scan_summary", PyDict [])].

(** The part of [parse_nmap_xml] below [root.find('host')], lines 416-470. *)
Definition parse_host (host : element) (result : pydict) : pydict :=
  let result :=
    match find "status" host with
    | Some status => Dict.set "host_status" (get_d status "state" "unknown") result
    | None => result
    end in
  let result :=
    match find "hostnames" host with
    | Some hostnames =>
        Dict.set "hostnames"
          (PyList (map hostname_entry (findall "hostname" hostnames))) result
    | None => result
    end in
  let result :=
    match find "ports" host with
    | Some ports =>
        let st := ports_loop (findall "port" ports) ([], 0) in
        Dict.set "open_ports" (PyInt st.2) (Dict.set "services" (PyList st.1) result)
    | None => result
    end in
  match find "os" host with
  | Some os_elem =>
      match find "osmatch" os_elem with
      | Some osmatch => Dict.set "os_info" (get_d osmatch "name" "") result
      | None => result
      end
  | None => result
  end.

(** Lines 473-481. *)
Definition parse_runstats (root : element) (result : pydict) : pydict :=
  match find "runstats" root with
  | Some runstats =>
      match find "finished" runstats with
      | Some finished =>
          Dict.set "scan_summary"
            (PyDict [("elapsed", get finished "elapsed");
                     ("timestr", get finished "timestr");
                     ("exit", get finished "exit")]) result
      | None => result
      end
  | None => result
  end.

(** [NmapScanner.parse_nmap_xml] of app.py.  Nothing below the root can
    raise: only [ET.parse] reaches the [except] clause. *)
Definition parse_nmap_xml (xml : parsed) : pydict :=
  match xml with
  | Raise e => [("parse_error", PyStr e)]
  | Ok root =>
      match find "host" root with
      | None => initial_result
      | Some host => parse_runstats root (parse_host host initial_result)
      end
  end.

End AppParser.

(** ** The result parser of nmap_scanner.py *)

Module ScannerParser.
Import ET.

(** C's [isspace], the blanks [int] skips around an ASCII literal: TAB..CR
    and the blank ([str.strip] takes FS..US for blanks too, [int] does
    not). *)
Definition c_isspace (c : ascii) : bool :=
  let n := nat_of_ascii c in
  ((9 <=? n)%nat && (n <=? 13)%nat) || (n =? 32)%nat.

Fixpoint skip_spaces (s : string) : string :=
  match s with
  | String c s' => if c_isspace c then skip_spaces s' else s
  | EmptyString => EmptyString
  end.

(** The run of digits and underscores [int] scans: its value, the number
    of digits, whether it ends in an underscore, and what follows it;
    [None] when two underscores follow each other. *)
Fixpoint scan_digits (s : string) (prev_underscore : bool) (acc : Z) (digits : nat)
  : option (Z * nat * bool * string) :=
  match s with
  | String c s' =>
      if PyStr.isdigit c then
        scan_digits s' false (10 * acc + (Z.of_nat (nat_of_ascii c) - 48)) (S digits)
      else if Ascii.eqb c "_" then
        (if prev_underscore then None else scan_digits s' true acc digits)
      else Some (acc, digits, prev_underscore, s)
  | EmptyString => Some (acc, digits, prev_underscore, s)
  end.

Definition hex_digit (n : nat) : ascii :=
  if (n <? 10)%nat then ascii_of_nat (48 + n) else ascii_of_nat (87 + n).

(** One character of [repr(s)] for ASCII text. *)
Definition repr_char (quote c : ascii) : string :=
  let n := nat_of_ascii c in
  if Ascii.eqb c quote || Ascii.eqb c "092" then String "092" (String c EmptyString)
  else if Ascii.eqb c "009" then String "092" "t"
  else if Ascii.eqb c "010" then String "092" "n"
  else if Ascii.eqb c "013" then String "092" "r"
  else if (n <? 32)%nat || (n =? 127)%nat then
    String "092" (String "x" (String (hex_digit (n / 16)) (String (hex_digit (n mod 16))
      EmptyString)))
  else String c EmptyString.

Fixpoint repr_body (quote : ascii) (s : string) : string :=
  match s with
  | EmptyString => EmptyString
  | String c s' => repr_char quote c +:+ repr_body quote s'
  end.

(** [repr(s)]: double quotes when the text holds a single quote and no
    double one, single quotes otherwise. *)
Definition repr (s : string) : string :=
  let quote : ascii :=
    if PyStr.contains "039" s && negb (PyStr.contains "034" s) then "034"%char
    else "039"%char in
  String quote (repr_body quote s) +:+ String quote EmptyString.

(** The [ValueError] of a text that is no number; the format [%.200R]
    cuts [repr] after 200 characters. *)
Definition invalid_literal (s : string) : string :=
  "invalid literal for int() with base 10: " +:+ substring 0 200 (repr s).

Definition exceeds_limit (digits : nat) : string :=
  "Exceeds the limit (4300 digits) for integer string conversion: value has " +:+
  PyStr.of_Z (Z.of_nat digits) +:+
  " digits; use sys.set_int_max_str_digits() to increase the limit".

(** [int(s)] for a string, in the order [PyLong_FromString] works: blanks,
    an optional sign, the run of digits (single underscores between them),
    the limit of 4300 digits ([sys.int_info.default_max_str_digits]),
    blanks, the end of the text. *)
Definition int_of_string (s : string) : res Z :=
  let invalid : res Z := Raise (invalid_literal s) in
  let body := skip_spaces s in
  let '(negative, body) :=
    match body with
    | String "-" d => (true, d)
    | String "+" d => (false, d)
    | _ => (false, body)
    end in
  if PyStr.startswith "_" body then invalid else
  match scan_digits body false 0 0 with
  | None => invalid
  | Some (v, digits, ends_in_underscore, rest) =>
      if ends_in_underscore then invalid
      else if (4300 <? digits)%nat then Raise (exceeds_limit digits)
      else if (digits =? 0)%nat then invalid
      else match skip_spaces rest with
           | EmptyString => Ok (if negative then - v else v)
           | _ => invalid
           end
  end.

(** [int(e.get(k, 0))]. *)
Definition int_attr (e : element) (k : string) : res Z :=
  match lookup_attr k (attrib e) with
  | Some v => int_of_string v
  | None => Ok 0
  end.

Definition hostname_entry (hostname : element) : pyval :=
  PyDict [("name", get hostname "name"); ("type", get hostname "type")].

(** The [for elem in elements] loop filling [script_data['elements']]. *)
Definition script_elements (elements : list element) : pydict :=
  fold_left
    (fun d elem =>
       match lookup_attr "key" (attrib elem) with
       | Some key => if PyStr.truthy key then Dict.set key (text_val elem) d else d
       | None => d
       end)
    elements [].

(** One entry of [port_data['scripts']], lines 390-404. *)
Definition script_entry (script : element) : pyval :=
  let script_data := [("id", get script "id"); ("output", get_d script "output" "")] in
  PyDict
    match findall "elem" script with
    | [] => script_data
    | elements => Dict.set "elements" (PyDict (script_elements elements)) script_data
    end.

(** [port_data] for one [port] node, lines 354-404. *)
Definition port_entry (port : element) : pydict :=
  let port_data :=
    [("port", get port "portid");
     ("protocol", get port "protocol");
     ("state", PyStr "unknown")] in
  let port_data :=
    match find "state" port with
    | Some state =>
        Dict.set "reason_ttl" (get_d state "reason_ttl" "")
          (Dict.set "reason" (get_d state "reason" "")
             (Dict.set "state" (get state "state") port_data))
    | None => port_data
    end in
  let port_data :=
    match find "service" port with
    | Some service =>
        let port_data :=
          Dict.update [("service", get_d service "name" "");
                       ("product", get_d service "product" "");
                       ("version", get_d service "version" "");
                       ("extrainfo", get_d service "extrainfo" "");
                       ("ostype", get_d service "ostype" "");
                       ("method", get_d service "method" "");
                       ("conf", get_d service "conf" "")] port_data in
        match findall "cpe" service with
        | [] => port_data
        | cpes => Dict.set "cpe" (PyList (map text_val cpes)) port_data
        end
    | None => port_data
    end in
  match findall "script" port with
  | [] => port_data
  | scripts => Dict.set "scripts" (PyList (map script_entry scripts)) port_data
  end.

Definition state_is_open (port_data : pydict) : bool :=
  match Dict.get "state" port_data with
  | Some (PyStr s) => String.eqb s "open"
  | _ => false
  end.

Definition ports_loop (ports : list element) (st : list pyval * Z)
  : list pyval * Z :=
  fold_left
    (fun st port =>
       let port_data := port_entry port in
       (st.1 ++ [PyDict port_data],
        if state_is_open port_data then st.2 + 1 else st.2))
    ports st.

Definition initial_result : pydict :=
  [("host_status", PyStr "down");
   ("open_ports", PyInt 0);
   ("services", PyList []);
   ("os_info", PyStr "");
   ("hostnames", PyList []);
   ("scan_info", PyDict []);
   ("scripts", PyDict [])].

(** Lines 304-311. *)
Definition parse_scaninfo (root : element) (result : pydict) : pydict :=
  match find "scaninfo" root with
  | Some scaninfo =>
      Dict.set "scan_info"
        (PyDict [("type", get scaninfo "type");
                 ("protocol", get scaninfo "protocol");
                 ("numservices", get scaninfo "numservices");
                 ("services", get scaninfo "services")]) result
  | None => result
  end.

(** Lines 319-339: status, hostnames and the MAC address. *)
Definition parse_identity (host : element) (result : pydict) : pydict :=
  let result :=
    match find "status" host with
    | Some status =>
        Dict.set "host_status_reason" (get_d status "reason" "")
          (Dict.set "host_status" (get_d status "state" "unknown") result)
    | None => result
    end in
  let result :=
    match find "hostnames" host with
    | Some hostnames =>
        Dict.set "hostnames"
          (PyList (map hostname_entry (findall "hostname" hostnames))) result
    | None => result
    end in
  fold_left
    (fun result address =>
       match lookup_attr "addrtype" (attrib address) with
       | Some "mac" =>
           Dict.set "mac_vendor" (get_d address "vendor" "")
             (Dict.set "mac_address" (get address "addr") result)
       | _ => result
       end)
    (findall "address" host) result.

(** Lines 342-409: [int] of the [extraports] count may raise. *)
Definition parse_ports (host : element) (result : pydict) : res pydict :=
  match find "ports" host with
  | Some ports =>
      result ←
        match find "extraports" ports with
        | Some extraports =>
            count ← int_attr extraports "count";
            Ok (Dict.set "extraports"
                  (PyDict [("state", get extraports "state"); ("count", PyInt count)])
                  result)
        | None => Ok result
        end;
      let st := ports_loop (findall "port" ports) ([], 0) in
      Ok (Dict.set "open_ports" (PyInt st.2) (Dict.set "services" (PyList st.1) result))
  | None => Ok result
  end.

Definition osclass_entry (osclass : element) : pyval :=
  PyDict [("type", get osclass "type");
          ("vendor", get osclass "vendor");
          ("osfamily", get osclass "osfamily");
          ("osgen", get osclass "osgen");
          ("accuracy", get osclass "accuracy")].

(** Lines 412-441. *)
Definition parse_os (host : element) (result : pydict) : pydict :=
  match find "os" host with
  | Some os_elem =>
      let result :=
        match findall "osmatch" os_elem with
        | best_match :: _ =>
            let result :=
              Dict.set "os_accuracy" (get_d best_match "accuracy" "")
                (Dict.set "os_info" (get_d best_match "name" "") result) in
            match findall "osclass" best_match with
            | [] => result
            | osclasses => Dict.set "os_classes" (PyList (map osclass_entry osclasses)) result
            end
        | [] => result
        end in
      match find "portused" os_elem with
      | Some portused =>
          Dict.set "os_portused"
            (PyDict [("state", get portused "state");
                     ("proto", get portused "proto");
                     ("portid", get portused "portid")]) result
      | None => result
      end
  | None => result
  end.

Definition hostscript_entry (script : element) : pyval :=
  PyDict [("id", get script "id"); ("output", get_d script "output" "")].

Definition hop_entry (hop : element) : pyval :=
  PyDict [("ttl", get hop "ttl");
          ("ipaddr", get hop "ipaddr");
          ("rtt", get hop "rtt");
          ("host", get_d hop "host" "")].

(** Lines 444-472: host scripts, traceroute and timing. *)
Definition parse_extras (host : element) (result : pydict) : pydict :=
  let result :=
    match findall2 "hostscript" "script" host with
    | [] => result
    | hostscripts => Dict.set "host_scripts" (PyList (map hostscript_entry hostscripts)) result
    end in
  let result :=
    match find "trace" host with
    | Some trace => Dict.set "traceroute" (PyList (map hop_entry (findall "hop" trace))) result
    | None => result
    end in
  match find "times" host with
  | Some times =>
      Dict.set "scan_times"
        (PyDict [("srtt", get times "srtt");
                 ("rttvar", get times "rttvar");
                 ("to", get times "to")]) result
  | None => result
  end.

(** Lines 475-492: the three [int] calls on [hosts] may raise. *)
Definition parse_runstats (root : element) (result : pydict) : res pydict :=
  match find "runstats" root with
  | Some runstats =>
      let result :=
        match find "finished" runstats with
        | Some finished =>
            Dict.set "scan_summary"
              (PyDict [("elapsed", get finished "elapsed");
                       ("time", get finished "time");
                       ("timestr", get finished "timestr");
                       ("exit", get finished "exit")]) result
        | None => result
        end in
      match find "hosts" runstats with
      | Some hosts =>
          up ← int_attr hosts "up";
          down ← int_attr hosts "down";
          total ← int_attr hosts "total";
          Ok (Dict.set "hosts_summary"
                (PyDict [("up", PyInt up); ("down", PyInt down); ("total", PyInt total)])
                result)
      | None => Ok result
      end
  | None => Ok result
  end.

(** The body of the [try] once the root is there. *)
Definition parse_root (root : element) : res pydict :=
  let result := parse_scaninfo root initial_result in
  match find "host" root with
  | None => Ok result
  | Some host =>
      result ← parse_ports host (parse_identity host result);
      parse_runstats root (parse_extras host (parse_os host result))
  end.

(** [NmapScanner.parse_nmap_xml] of nmap_scanner.py. *)
Definition parse_nmap_xml (xml : parsed) : pydict :=
  match xml ≫= parse_root with
  | Ok result => result
  | Raise e => [("parse_error", PyStr e)]
  end.

End ScannerParser.

(** ** The outside world of one scan *)

(** What the clock, the operating system and the file system answer while
    [scan_single_ip] runs once.  The Python functions take none of this as
    an argument: they ask [time.time()], [datetime.now()],
    [subprocess.Popen], [Path.exists] and [ET.parse] themselves. *)
Record world := World {
  time_time : PyFloat.float;  (* time.time() when the command is built *)
  start_iso : string;       (* datetime.now().isoformat() before Popen *)
  end_iso : string;         (* the same after communicate() *)
  duration : string;        (* str(end_time - start_time) *)
  error_iso : string;       (* datetime.now().isoformat() in the handler *)
  popen : res nat;          (* the process handle, or the exception of Popen *)
  communicate_raises : option string;
                            (* process.communicate() raises, as it does when
                               the output of the process cannot be decoded *)
  stdout : string;
  stderr : string;
  returncode : Z;
  cancelled : bool;         (* a cancel request removed the registry entry
                               while communicate() was blocking *)
  xml_exists : bool;
  nmap_exists : bool;
  gnmap_exists : bool;
  xml : ET.parsed;          (* ET.parse of the XML artifact *)
  save_metadata : res unit  (* writing the metadata file *)
}.

(** The scan options, as the request body carries them; [None] is a key
    that is absent. *)
Record options := Options {
  preset : option string;
  scripts : bool;
  version_detection : bool;
  os_detection : bool;
  skip_ping : bool;
  ping_only : bool;
  aggressive : bool;
  verbose : bool;
  timing : option string;
  custom_ports : option string
}.

(** One entry of [active_scans]. *)
Record scan_info := ScanInfo {
  process : nat;
  target_ip : string;
  start_time : string;
  output_file : string
}.

(** ** The command builder *)

Module Builder.
Import PyStr IPProcessor.

Section Build.

(** [self.scan_presets], and what [options.get('preset', ...)] answers when
    the key is absent: the two classes differ in both. *)
Variable scan_presets : list (string * list string).
Variable preset_default : option string.

Fixpoint lookup_preset (k : string) (l : list (string * list string))
  : option (list string) :=
  match l with
  | [] => None
  | (k', v) :: l' => if String.eqb k' k then Some v else lookup_preset k l'
  end.

(** [NmapScanner.build_nmap_command]. *)
Definition build_nmap_command (w : world) (target_data : target) (o : options)
  : list string * string :=
  let cmd := ["nmap"] in
  let cmd :=
    match (match preset o with Some p => Some p | None => preset_default end) with
    | Some p =>
        match lookup_preset p scan_presets with
        | Some flags => cmd ++ flags
        | None => cmd
        end
    | None => cmd
    end in
  let cmd := if scripts o then cmd ++ ["-sC"] else cmd in
  let cmd := if version_detection o then cmd ++ ["-sV"] else cmd in
  let cmd := if os_detection o then cmd ++ ["-O"] else cmd in
  let cmd := if skip_ping o then cmd ++ ["-Pn"] else cmd in
  let cmd := if ping_only o then cmd ++ ["-sn"] else cmd in
  let cmd := if aggressive o then cmd ++ ["-A"] else cmd in
  let cmd := if verbose o then cmd ++ ["-v"] else cmd in
  let timing := default "-T3" (timing o) in
  let cmd := if truthy timing then cmd ++ [timing] else cmd in
  let cmd :=
    match custom_ports o with
    | Some (String _ _ as p) => cmd ++ ["-p"; p]
    | _ =>
        match ports target_data with
        | [] => cmd
        | ps => cmd ++ ["-p"; join "," ps]
        end
    end in
  let timestamp := PyFloat.int_of_float (time_time w) in
  let target_ip := ip target_data in
  let safe_ip := replace ":" "_" (replace "." "_" target_ip) in
  let output_file := "scan_" +:+ safe_ip +:+ "_" +:+ of_Z timestamp in
  let cmd := cmd ++ ["-oX"; output_file +:+ ".xml"] in
  let cmd := cmd ++ ["-oN"; output_file +:+ ".nmap"] in
  let cmd := cmd ++ ["-oG"; output_file +:+ ".gnmap"] in
  let cmd := cmd ++ [target_ip] in
  (cmd, output_file).

End Build.

End Builder.

(** ** Processes and events *)

(** What is done to a process handle, in the order it is done. *)
Inductive proc_action : Type :=
| Terminate (p : nat)
| Sleep (seconds : Z)
| Poll (p : nat)
| Kill (p : nat).

(** What the process answers while it is being cancelled. *)
Record cancel_world := CancelWorld {
  terminate_raises : option string;   (* process.terminate() raises *)
  still_running : bool;               (* process.poll() is None after the wait *)
  kill_raises : option string;        (* process.kill() raises *)
  entry_removed : bool                (* during sleep(1) the scan thread, whose
                                         communicate() returned when the process
                                         ended, deleted the job from active_scans *)
}.

(** The events handed to [socketio.emit].  The percentage, the elapsed
    time and the computed ETA are float arithmetic on the clock and are
    left out of the payload; [eta_pending] says that the ETA is still the
    text "Calculating...". *)
Inductive event : Type :=
| scan_started (sid : string) (total_targets : nat) (project_id : string)
| scan_progress (sid current_target : string) (completed total : nat) (eta_pending : bool)
| host_result (sid target_ip : string) (result : pydict)
| host_error (sid target_ip : string) (error : string)
| scan_completed (sid : string) (total_completed total_targets : nat)
| scan_cancelled (sid : string).

(** The session file [scan_session_<id>.json]. *)
Record session_data := SessionData {
  sd_status : string;               (* 'status' *)
  sd_completed_targets : nat;       (* 'completed_targets' *)
  sd_total_targets : nat;           (* 'total_targets' *)
  sd_end_time : option string       (* 'end_time' *)
}.

(** ** app.py: scanner, session loop and cancel route *)

Module App.
Import IPProcessor.

Definition scan_presets : list (string * list string) :=
  [("fast", ["-F"]);
   ("top1000", ["--top-ports"; "1000"]);
   ("allports", ["-p-"]);
   ("udp", ["-sU"]);
   ("stealth", ["-sS"]);
   ("comprehensive", ["-A"]);
   ("vuln", ["--script=vuln"]);
   ("discovery", ["-sn"]);
   ("ping_only", ["-sn"])].

(** [options.get('preset')]: no default. *)
Definition build_nmap_command := Builder.build_nmap_command scan_presets None.

(** [scan_single_ip] up to the blocking [process.communicate()]: the
    command is built, the process spawned and the job stored in
    [active_scans] under the session id. *)
Definition submit (w : world) (active_scans : gmap string scan_info)
    (target_data : target) (o : options) (scan_session_id : string)
  : res (gmap string scan_info * list string * string) :=
  let '(cmd, output_file) := build_nmap_command w target_data o in
  process ← popen w;
  Ok (<[scan_session_id := ScanInfo process (ip target_data) (start_iso w) output_file]>
        active_scans, cmd, output_file).

Definition file_or_none (present : bool) (name : string) : pyval :=
  if present then PyStr name else PyNone.

(** The dictionary of the [except] clause. *)
Definition error_result (w : world) (target_ip e : string) : pydict :=
  [("target_ip", PyStr target_ip);
   ("status", PyStr "error");
   ("error", PyStr e);
   ("start_time", PyStr (error_iso w))].

(** [NmapScanner.scan_single_ip] of app.py: the registry after the call
    and the dictionary returned.  Whatever raises after the job was stored
    ends in the [except] clause, which does not clean the registry. *)
Definition scan_single_ip (w : world) (active_scans : gmap string scan_info)
    (target_data : target) (o : options) (scan_session_id : string)
  : gmap string scan_info * pydict :=
  let target_ip := ip target_data in
  match submit w active_scans target_data o scan_session_id with
  | Raise e => (active_scans, error_result w target_ip e)
  | Ok (active_scans, cmd, output_file) =>
      let active_scans :=
        if cancelled w then delete scan_session_id active_scans else active_scans in
      match communicate_raises w with
      | Some e => (active_scans, error_result w target_ip e)
      | None =>
      let result :=
        [("target_ip", PyStr target_ip);
         ("status", PyStr (if returncode w =? 0 then "completed" else "failed"));
         ("start_time", PyStr (start_iso w));
         ("end_time", PyStr (end_iso w));
         ("duration", PyStr (duration w));
         ("xml_file", file_or_none (xml_exists w) (output_file +:+ ".xml"));
         ("nmap_file", file_or_none (nmap_exists w) (output_file +:+ ".nmap"));
         ("gnmap_file", file_or_none (gnmap_exists w) (output_file +:+ ".gnmap"));
         ("stdout", PyStr (stdout w));
         ("stderr", PyStr (stderr w));
         ("return_code", PyInt (returncode w));
         ("nmap_command", PyStr (PyStr.join " " cmd))] in
      let result :=
        if xml_exists w then Dict.update (AppParser.parse_nmap_xml (xml w)) result
        else result in
      match save_metadata w with
      | Raise e => (active_scans, error_result w target_ip e)
      | Ok _ => (delete scan_session_id active_scans, result)
      end
      end
  end.

(** The state the session loop works on. *)
Record session := Session {
  active_scans : gmap string scan_info;
  session_file : option session_data;
  emitted : list event
}.

Definition emit (e : event) (s : session) : session :=
  Session (active_scans s) (session_file s) (emitted s ++ [e]).

Section SessionLoop.

(** The scanner the loop calls inside its [try]: the registry after the
    call, and the dictionary returned or the exception raised. *)
Variable scanner_scan_single_ip :
  world -> gmap string scan_info -> target -> options -> string ->
  gmap string scan_info * res pydict.

(** The world of the scan that starts when [completed] targets are done. *)
Variable env : nat -> world.

Variables (o : options) (project_id scan_session_id : string) (total_targets : nat).

(** One turn of [for target_data in targets], lines 732-787. *)
Definition scan_target (st : session * nat) (target_data : target) : session * nat :=
  let '(s, completed) := st in
  let target_ip := ip target_data in
  let s := emit (scan_progress scan_session_id target_ip completed total_targets
                   (Nat.eqb completed 0)) s in
  let '(reg, r) :=
    scanner_scan_single_ip (env completed) (active_scans s) target_data o scan_session_id in
  let s := Session reg (session_file s) (emitted s) in
  let s :=
    match r with
    | Ok result => emit (host_result scan_session_id target_ip result) s
    | Raise e => emit (host_error scan_session_id target_ip e) s
    end in
  let completed := S completed in
  let s :=
    match session_file s with
    | Some session_data =>
        Session (active_scans s)
          (Some (SessionData (sd_status session_data) completed
                   (sd_total_targets session_data) (sd_end_time session_data)))
          (emitted s)
    | None => s
    end in
  (s, completed).

(** [scan_ip_list], lines 718-806; [finish_iso] is [datetime.now()] when
    the loop is over. *)
Definition scan_ip_list_with (targets : list target) (finish_iso : string) (s : session)
  : session :=
  let s := emit (scan_started scan_session_id total_targets project_id) s in
  let '(s, completed) := fold_left scan_target targets (s, O) in
  let s :=
    match session_file s with
    | Some session_data =>
        Session (active_scans s)
          (Some (SessionData "completed" (sd_completed_targets session_data)
                   (sd_total_targets session_data) (Some finish_iso)))
          (emitted s)
    | None => s
    end in
  emit (scan_completed scan_session_id completed total_targets) s.

End SessionLoop.

(** [scan_ip_list] with the scanner of app.py, which returns a dictionary
    on every path. *)
Definition scan_ip_list (env : nat -> world) (targets : list target) (o : options)
    (project_id scan_session_id finish_iso : string) (s : session) : session :=
  scan_ip_list_with
    (fun w reg t o sid => let '(reg, d) := scan_single_ip w reg t o sid in (reg, Ok d))
    env o project_id scan_session_id (length targets) targets finish_iso s.

(** The session file [start_scan] writes before the loop starts. *)
Definition new_session_file (targets : list target) : session_data :=
  SessionData "running" 0 (length targets) None.

(** The answer of a route: the [success] flag, its text and the status. *)
Record response := Response { success : bool; text : string; http_status : Z }.

(** The route [/api/scan/cancel], lines 808-828. *)
Definition cancel_scan (w : cancel_world) (scan_session_id : string) (s : session)
  : session * list proc_action * response :=
  match active_scans s !! scan_session_id with
  | Some scan_info =>
      match terminate_raises w with
      | Some e => (s, [Terminate (process scan_info)], Response false e 500)
      | None =>
          (emit (scan_cancelled scan_session_id)
             (Session (delete scan_session_id (active_scans s)) (session_file s) (emitted s)),
           [Terminate (process scan_info)],
           Response true "Scan cancelled" 200)
      end
  | None => (s, [], Response false "Scan not found" 404)
  end.

End App.

(** ** nmap_scanner.py: scanner and cancel *)

Module Scanner.
Import IPProcessor.

Definition scan_presets : list (string * list string) :=
  [("fast", ["-F"]);
   ("top1000", ["--top-ports"; "1000"]);
   ("allports", ["-p-"]);
   ("udp", ["-sU"; "--top-ports"; "100"]);
   ("stealth", ["-sS"]);
   ("comprehensive", ["-A"]);
   ("vuln", ["--script=vuln"]);
   ("discovery", ["-sn"]);
   ("ping_only", ["-sn"])].

(** [options.get('preset', 'fast')]. *)
Definition build_nmap_command := Builder.build_nmap_command scan_presets (Some "fast").

(** [scan_single_ip] up to the blocking [process.communicate()]. *)
Definition submit (w : world) (active_scans : gmap string scan_info)
    (target_data : target) (o : options) (scan_session_id : string)
  : res (gmap string scan_info * list string * string) :=
  let '(cmd, output_file) := build_nmap_command w target_data o in
  process ← popen w;
  Ok (<[scan_session_id := ScanInfo process (ip target_data) (start_iso w) output_file]>
        active_scans, cmd, output_file).

Definition error_result (w : world) (target_ip e : string) : pydict :=
  [("target_ip", PyStr target_ip);
   ("status", PyStr "error");
   ("error", PyStr e);
   ("start_time", PyStr (error_iso w))].

(** [NmapScanner.scan_single_ip] of nmap_scanner.py, without the progress
    callback.  [save_scan_metadata] catches what it raises itself; when
    [communicate] raises, the [except] clause returns the error dictionary
    and does not clean the registry. *)
Definition scan_single_ip (w : world) (active_scans : gmap string scan_info)
    (target_data : target) (o : options) (scan_session_id : string)
  : gmap string scan_info * pydict :=
  let target_ip := ip target_data in
  match submit w active_scans target_data o scan_session_id with
  | Raise e => (active_scans, error_result w target_ip e)
  | Ok (active_scans, cmd, output_file) =>
      let active_scans :=
        if cancelled w then delete scan_session_id active_scans else active_scans in
      match communicate_raises w with
      | Some e => (active_scans, error_result w target_ip e)
      | None =>
      match active_scans !! scan_session_id with
      | None =>
          (active_scans,
           [("target_ip", PyStr target_ip);
            ("status", PyStr "cancelled");
            ("start_time", PyStr (start_iso w));
            ("end_time", PyStr (end_iso w))])
      | Some _ =>
          let result :=
            [("target_ip", PyStr target_ip);
             ("status", PyStr (if returncode w =? 0 then "completed" else "failed"));
             ("start_time", PyStr (start_iso w));
             ("end_time", PyStr (end_iso w));
             ("duration", PyStr (duration w));
             ("xml_file", App.file_or_none (xml_exists w) (output_file +:+ ".xml"));
             ("nmap_file", App.file_or_none (nmap_exists w) (output_file +:+ ".nmap"));
             ("gnmap_file", App.file_or_none (gnmap_exists w) (output_file +:+ ".gnmap"));
             ("stdout", PyStr (stdout w));
             ("stderr", PyStr (stderr w));
             ("return_code", PyInt (returncode w));
             ("command", PyStr (PyStr.join " " cmd))] in
          let result :=
            if xml_exists w then Dict.update (ScannerParser.parse_nmap_xml (xml w)) result
            else result in
          (delete scan_session_id active_scans, result)
      end
      end
  end.

(** [del self.active_scans[scan_session_id]]: [KeyError] when the key is
    not there. *)
Definition del_entry (scan_session_id : string) (active_scans : gmap string scan_info)
  : res (gmap string scan_info) :=
  match active_scans !! scan_session_id with
  | Some _ => Ok (delete scan_session_id active_scans)
  | None => Raise ("'" +:+ scan_session_id +:+ "'")
  end.

(** [NmapScanner.cancel_scan]: the registry after the call, what was done
    to the process, and the boolean returned.  While the call sleeps, the
    scan thread may finish and delete the job itself; the [del] of line 255
    then raises [KeyError], which the [except] clause turns into [False]. *)
Definition cancel_scan (w : cancel_world) (scan_session_id : string)
    (active_scans : gmap string scan_info)
  : gmap string scan_info * list proc_action * bool :=
  match active_scans !! scan_session_id with
  | Some scan_info =>
      let process := process scan_info in
      match terminate_raises w with
      | Some _ => (active_scans, [Terminate process], false)
      | None =>
          let active_scans :=
            if entry_removed w then delete scan_session_id active_scans
            else active_scans in
          let done := [Terminate process; Sleep 1; Poll process] in
          let '(done, killed) :=
            if still_running w then (done ++ [Kill process], kill_raises w)
            else (done, None) in
          match killed with
          | Some _ => (active_scans, done, false)
          | None =>
              match del_entry scan_session_id active_scans with
              | Ok active_scans => (active_scans, done, true)
              | Raise _ => (active_scans, done, false)
              end
          end
      end
  | None => (active_scans, [], false)
  end.

End Scanner.


(** ** Vocabulary of the statements *)

(** The addresses from [start] on, [count] of them, as text. *)
Definition addresses (start count : Z) : list string :=
  map IPProcessor.ip_str (seqZ start count).

(** The port nodes the parsers walk over: the [port] children of the
    first [ports] block of the first [host] of the artifact. *)
Definition port_nodes (root : ET.element) : list ET.element :=
  match ET.find "host" root with
  | Some host =>
      match ET.find "ports" host with
      | Some ports => ET.findall "port" ports
      | None => []
      end
  | None => []
  end.

(** The state attribute of a port node is literally [open]. *)
Definition port_is_open (port : ET.element) : bool :=
  match ET.find "state" port with
  | Some state =>
      match ET.lookup_attr "state" (ET.attrib state) with
      | Some s => String.eqb s "open"
      | None => false
      end
  | None => false
  end.

Definition count_open (ports : list ET.element) : Z :=
  Z.of_nat (length (filter (fun p => port_is_open p = true) ports)).


(** The targets of the result-or-error events, in the order emitted. *)
Fixpoint outcome_targets (events : list event) : list string :=
  match events with
  | [] => []
  | host_result _ target_ip _ :: rest => target_ip :: outcome_targets rest
  | host_error _ target_ip _ :: rest => target_ip :: outcome_targets rest
  | _ :: rest => outcome_targets rest
  end.

(** The process calls of a cancel that runs to its end. *)
Definition cancel_calls (process : nat) (still_running : bool) : list proc_action :=
  [Terminate process; Sleep 1; Poll process] ++
  (if still_running then [Kill process] else []).

(** *** Sample inputs *)

Module Sample.
Import ET IPProcessor.



(** A port node with a state and no [service] child. *)
Definition port_without_service : element :=
  Element "port" [("protocol", "tcp"); ("portid", "22")] None
    [Element "state" [("state", "open"); ("reason", "syn-ack")] None []].

Definition port_with_service : element :=
  Element "port" [("protocol", "tcp"); ("portid", "80")] None
    [Element "state" [("state", "closed")] None [];
     Element "service" [("name", "http")] None []].

Definition artifact_with_ports : element :=
  Element "nmaprun" [] None
    [Element "host" [] None
       [Element "status" [("state", "up")] None [];
        Element "ports" [] None [port_without_service; port_with_service]]].

Definition fast_T4 : options :=
  Options (Some "fast") false false false false false false false (Some "-T4") None.

(** A scan that runs to its end with exit code 0 and a readable artifact. *)
(** The clock reads 1700000000.25 when the command is built. *)
Definition good_world : world :=
  World (QArith_base.Qmake 6800000001 4)
        "2024-01-01T00:00:00" "2024-01-01T00:00:30" "0:00:30"
        "2024-01-01T00:00:31" (Ok 4242%nat) None "Nmap done" "" 0 false
        true true true (Ok artifact_with_ports) (Ok tt).

(** The same scan one second later on the clock, at 1700000001.5. *)
Definition later_world : world :=
  World (QArith_base.Qmake 3400000003 2)
        "2024-01-01T00:00:00" "2024-01-01T00:00:30" "0:00:30"
        "2024-01-01T00:00:31" (Ok 4242%nat) None "Nmap done" "" 0 false
        true true true (Ok artifact_with_ports) (Ok tt).

(** A scan whose process exits with code 1 and leaves no XML artifact. *)
Definition failing_world : world :=
  World (QArith_base.Qmake 1700000040 1)
        "2024-01-01T00:00:40" "2024-01-01T00:00:41" "0:00:01"
        "2024-01-01T00:00:42" (Ok 4243%nat) None "" "Failed to resolve" 1 false
        false true true (Raise "No such file") (Ok tt).

(** A scan whose XML artifact is there and is not well-formed; the clock
    reads 1700000000.75, in the second of [good_world]. *)
Definition broken_xml_world : world :=
  World (QArith_base.Qmake 6800000003 4)
        "2024-01-01T00:00:00" "2024-01-01T00:00:30" "0:00:30"
        "2024-01-01T00:00:31" (Ok 4242%nat) None "Nmap done" "" 0 false
        true true true (Raise "no element found: line 1, column 0") (Ok tt).

Definition T1 : target := Target "10.0.0.1" [].
Definition T2 : target := Target "10.0.0.2" [].
Definition T3 : target := Target "10.0.0.3" [].

(** The second scan of a session fails, the others succeed. *)
Definition second_fails (completed : nat) : world :=
  if Nat.eqb completed 1 then failing_world else good_world.

Definition job (n : nat) : scan_info :=
  ScanInfo n "10.0.0.1" "2024-01-01T00:00:00" "scan_10_0_0_1_1700000000".

(** A registry that holds [max_concurrent_scans] running jobs. *)
Definition full_registry : gmap string scan_info :=
  <["s1" := job 1]> (<["s2" := job 2]> (<["s3" := job 3]>
    (<["s4" := job 4]> (<["s5" := job 5]> ∅)))).

(** A process that ends on the terminate request, and one that does not;
    in both the scan thread leaves the registry alone during the wait. *)
Definition obedient : cancel_world := CancelWorld None false None false.
Definition stubborn : cancel_world := CancelWorld None true None false.

(** The process ends on the terminate request, [communicate] returns in
    the scan thread, and that thread runs to its cleanup while the cancel
    call is still asleep. *)
Definition overtaken : cancel_world := CancelWorld None false None true.

(** An artifact with two hosts: one open port on the first, two on the
    second. *)
Definition artifact_with_two_hosts : element :=
  Element "nmaprun" [] None
    [Element "host" [] None
       [Element "status" [("state", "up")] None [];
        Element "ports" [] None [port_without_service; port_with_service]];
     Element "host" [] None
       [Element "status" [("state", "up")] None [];
        Element "ports" [] None
          [Element "port" [("protocol", "tcp"); ("portid", "443")] None
             [Element "state" [("state", "open")] None []];
           Element "port" [("protocol", "tcp"); ("portid", "8080")] None
             [Element "state" [("state", "open")] None []]]]].

End Sample.

(** ** config.py: the configuration tree *)

Module Config.

(** A value of the configuration, as [json.load] builds it (numbers are
    integers, as in the default configuration). *)
Inductive jval : Type :=
| JNull
| JBool (b : bool)
| JInt (n : Z)
| JStr (s : string)
| JList (l : list jval)
| JDict (d : list (string * jval)).

Abbreviation jdict := (list (string * jval)).

(** [d.get(k)], [k in d] and [d[k] = v] on a dictionary. *)
Fixpoint dget (k : string) (d : jdict) : option jval :=
  match d with
  | [] => None
  | (k', v) :: d' => if String.eqb k' k then Some v else dget k d'
  end.

Fixpoint dset (k : string) (v : jval) (d : jdict) : jdict :=
  match d with
  | [] => [(k, v)]
  | (k', v') :: d' =>
      if String.eqb k' k then (k, v) :: d' else (k', v') :: dset k v d'
  end.

(** What [result[key]] becomes in the loop of [_merge_configs] for one
    [key, value] of [loaded], [old] being [result.get(key)]: the merge of
    the two when both are dictionaries, else [value]. *)
Fixpoint merge_value (value : jval) (old : option jval) : jval :=
  match value, old with
  | JDict loaded, Some (JDict default) =>
      JDict
        ((fix loop (loaded : list (string * jval)) (result : jdict) : jdict :=
            match loaded with
            | [] => result
            | (key, value) :: rest =>
                loop rest (dset key (merge_value value (dget key result)) result)
            end) loaded default)
  | _, _ => value
  end.

(** [Config._merge_configs(default, loaded)]: the loop over
    [loaded.items()], starting from a copy of [default]. *)
Fixpoint _merge_configs (default loaded : jdict) : jdict :=
  match loaded with
  | [] => default
  | (key, value) :: rest =>
      _merge_configs (dset key (merge_value value (dget key default)) default) rest
  end.

(** The loop of [Config.get] over the keys of the path. *)
Fixpoint get_keys (keys : list string) (value default : jval) : jval :=
  match keys with
  | [] => value
  | key :: keys' =>
      match value with
      | JDict d =>
          match dget key d with
          | Some v => get_keys keys' v default
          | None => default
          end
      | _ => default
      end
  end.

(** [Config.get(key_path, default)]. *)
Definition get (config : jdict) (key_path : string) (default : jval) : jval :=
  get_keys (PyStr.split "." key_path) (JDict config) default.

(** The walk of [Config.set] below [config_ref]: a missing key of the
    path gets a fresh dictionary; a value on the path that is no
    dictionary makes the next access raise [TypeError]. *)
Fixpoint set_keys (keys : list string) (value : jval) (config_ref : jdict)
  : res jdict :=
  match keys with
  | [] => Ok config_ref
  | [key] => Ok (dset key value config_ref)
  | key :: keys' =>
      match dget key config_ref with
      | None =>
          sub ← set_keys keys' value [];
          Ok (dset key (JDict sub) config_ref)
      | Some (JDict sub) =>
          sub ← set_keys keys' value sub;
          Ok (dset key (JDict sub) config_ref)
      | Some _ => Raise "TypeError"
      end
  end.

(** [Config.set(key_path, value)]: the configuration after the call.
    Writing the file ([save_config]) is left out, it changes nothing
    here and catches what it raises. *)
Definition set (config : jdict) (key_path : string) (value : jval) : res jdict :=
  set_keys (PyStr.split "." key_path) value config.

(** Every dictionary of the value has each key once, as [json.load]
    builds them. *)
Fixpoint unique_keys (v : jval) : bool :=
  match v with
  | JDict d =>
      (fix all (d : list (string * jval)) : bool :=
         match d with
         | [] => true
         | (k, v) :: d' =>
             negb (existsb (fun kv => String.eqb kv.1 k) d') && unique_keys v && all d'
         end) d
  | _ => true
  end.

(** The value a dictionary holds at the end of a path of keys. *)
Fixpoint lookup_keys (keys : list string) (value : jval) : option jval :=
  match keys with
  | [] => Some value
  | key :: keys' =>
      match value with
      | JDict d =>
          match dget key d with
          | Some v => lookup_keys keys' v
          | None => None
          end
      | _ => None
      end
  end.

(** The loaded file says nothing about the path: at some key of the
    path, below dictionaries only, the key is missing. *)
Fixpoint untouched (keys : list string) (loaded : jval) : bool :=
  match keys with
  | [] => false
  | key :: keys' =>
      match loaded with
      | JDict l =>
          match dget key l with
          | None => true
          | Some sub => untouched keys' sub
          end
      | _ => false
      end
  end.

(** The ['scanning'] and ['security'] sections of the default
    configuration of [load_config]. *)
Definition default_scanning : jdict :=
  [("max_concurrent_scans", JInt 5);
   ("default_timeout", JInt 300);
   ("max_targets_per_scan", JInt 1000);
   ("default_timing", JStr "-T3");
   ("output_formats", JList [JStr "xml"; JStr "nmap"; JStr "gnmap"])].

Definition default_security : jdict :=
  [("allowed_scan_types",
    JList [JStr "fast"; JStr "top1000"; JStr "allports"; JStr "stealth";
           JStr "comprehensive"; JStr "vuln"; JStr "discovery"]);
   ("blocked_options",
    JList [JStr "--script-help"; JStr "--script-trace"; JStr "--iflist"]);
   ("validate_targets", JBool true);
   ("allow_localhost", JBool false);
   ("allow_private_networks", JBool true)].

Definition default_sections : jdict :=
  [("scanning", JDict default_scanning); ("security", JDict default_security)].

End Config.

(** ** More vocabulary *)

(** The counters of the progress events, in the order emitted:
    [(completed, total, eta_pending)]. *)
Fixpoint progress_counts (events : list event) : list (nat * nat * bool) :=
  match events with
  | [] => []
  | scan_progress _ _ completed total pending :: rest =>
      (completed, total, pending) :: progress_counts rest
  | _ :: rest => progress_counts rest
  end.

(** The name of the first [osmatch] of the first [os] block of a host,
    the empty string when there is none or it has no name. *)
Definition first_os_name (host : ET.element) : string :=
  match ET.find "os" host with
  | Some os_elem =>
      match ET.findall "osmatch" os_elem with
      | best_match :: _ => default "" (ET.lookup_attr "name" (ET.attrib best_match))
      | [] => ""
      end
  | None => ""
  end.

(** An artifact whose [extraports] count is no number. *)
Definition artifact_with_bad_count : ET.element :=
  ET.Element "nmaprun" [] None
    [ET.Element "host" [] None
       [ET.Element "status" [("state", "up")] None [];
        ET.Element "ports" [] None
          [ET.Element "extraports" [("state", "closed"); ("count", "many")] None [];
           Sample.port_without_service]]].

(** The keys a parser can write. *)
Definition app_parser_keys : list string :=
  ["parse_error"; "host_status"; "open_ports"; "services"; "os_info"; "hostnames";
   "scan_summary"].

Definition scanner_parser_keys : list string :=
  ["parse_error"; "host_status"; "open_ports"; "services"; "os_info"; "hostnames";
   "scan_info"; "scripts"; "host_status_reason"; "mac_vendor"; "mac_address";
   "extraports"; "os_accuracy"; "os_classes"; "os_portused"; "host_scripts";
   "traceroute"; "scan_times"; "scan_summary"; "hosts_summary"].

(** A scan whose metadata file cannot be written. *)
Definition unwritable_world : world :=
  World (QArith_base.Qmake 1700000000 1)
        "2024-01-01T00:00:00" "2024-01-01T00:00:30" "0:00:30"
        "2024-01-01T00:00:31" (Ok 4242%nat) None "Nmap done" "" 0 false
        true true true (Ok Sample.artifact_with_ports) (Raise "Permission denied").

(** A scan whose process is killed by a cancel request. *)
Definition cancelled_world : world :=
  World (QArith_base.Qmake 1700000000 1)
        "2024-01-01T00:00:00" "2024-01-01T00:00:05" "0:00:05"
        "2024-01-01T00:00:06" (Ok 4242%nat) None "" "" (-15) true
        false false false (Raise "No such file") (Ok tt).


(** ** app.py: aggregation of the stored scan results *)

(** The stored values are those the scanner writes: [None], integers,
    strings, lists and dictionaries. *)

Module Aggregate.

(** [bool(v)]. *)
Definition truthy (v : pyval) : bool :=
  match v with
  | PyNone => false
  | PyInt n => negb (n =? 0)
  | PyStr s => PyStr.truthy s
  | PyList l => match l with [] => false | _ => true end
  | PyDict d => match d with [] => false | _ => true end
  end.

(** [v == w] for values that can be put in a set; lists and dictionaries
    cannot. *)
Definition atom_eqb (v w : pyval) : bool :=
  match v, w with
  | PyNone, PyNone => true
  | PyInt a, PyInt b => a =? b
  | PyStr a, PyStr b => String.eqb a b
  | _, _ => false
  end.

Definition hashable (v : pyval) : bool :=
  match v with
  | PyNone | PyInt _ | PyStr _ => true
  | _ => false
  end.

(** The dictionary [stats]; the set [unique_services] is the list of its
    elements, each once. *)
Record stats := Stats {
  total_hosts_scanned : Z;
  hosts_up : Z;
  hosts_down : Z;
  total_open_ports : Z;
  unique_services : list pyval;
  os_detected : list pyval;
  scan_timeline : list pyval
}.

Definition initial_stats : stats := Stats 0 0 0 0 [] [] [].

(** [s.add(v)]. *)
Definition set_add (v : pyval) (s : list pyval) : list pyval :=
  if existsb (atom_eqb v) s then s else s ++ [v].

(** The loop [for service in result.get('services', [])] over a list:
    the set afterwards, and whether the loop ran to its end ([false]: an
    element that is no dictionary, or a name that cannot be hashed,
    raised). *)
Fixpoint services_loop (services : list pyval) (names : list pyval)
  : list pyval * bool :=
  match services with
  | [] => (names, true)
  | PyDict service :: rest =>
      match Dict.get "service" service with
      | Some name =>
          if truthy name then
            if hashable name then services_loop rest (set_add name names)
            else (names, false)
          else services_loop rest names
      | None => services_loop rest names
      end
  | _ :: _ => (names, false)
  end.

(** The same loop for whatever [result.get('services', [])] is: a string
    or a dictionary that is not empty yields strings, on which [.get]
    raises; [None] and numbers cannot be iterated. *)
Definition collect_services (services : pyval) (names : list pyval)
  : list pyval * bool :=
  match services with
  | PyList l => services_loop l names
  | PyStr s => (names, negb (PyStr.truthy s))
  | PyDict d => (names, match d with [] => true | _ => false end)
  | PyNone | PyInt _ => (names, false)
  end.

(** The updates of [stats], one per statement of the source. *)
Definition count_scanned (s : stats) : stats :=
  Stats (total_hosts_scanned s + 1) (hosts_up s) (hosts_down s) (total_open_ports s)
        (unique_services s) (os_detected s) (scan_timeline s).

Definition count_host (is_up : bool) (s : stats) : stats :=
  Stats (total_hosts_scanned s)
        (if is_up then hosts_up s + 1 else hosts_up s)
        (if is_up then hosts_down s else hosts_down s + 1)
        (total_open_ports s) (unique_services s) (os_detected s) (scan_timeline s).

Definition add_open_ports (n : Z) (s : stats) : stats :=
  Stats (total_hosts_scanned s) (hosts_up s) (hosts_down s) (total_open_ports s + n)
        (unique_services s) (os_detected s) (scan_timeline s).

Definition with_services (names : list pyval) (s : stats) : stats :=
  Stats (total_hosts_scanned s) (hosts_up s) (hosts_down s) (total_open_ports s)
        names (os_detected s) (scan_timeline s).

Definition add_os (entry : pyval) (s : stats) : stats :=
  Stats (total_hosts_scanned s) (hosts_up s) (hosts_down s) (total_open_ports s)
        (unique_services s) (os_detected s ++ [entry]) (scan_timeline s).

Definition add_timeline (entry : pyval) (s : stats) : stats :=
  Stats (total_hosts_scanned s) (hosts_up s) (hosts_down s) (total_open_ports s)
        (unique_services s) (os_detected s) (scan_timeline s ++ [entry]).

(** [result.get('host_status') == 'up']. *)
Definition status_is_up (result : pydict) : bool :=
  match Dict.get "host_status" result with
  | Some (PyStr status) => String.eqb status "up"
  | _ => false
  end.

(** The statements after the host has been counted, lines 1010-1031, for
    a [result] that is a dictionary. *)
Definition process_result (scan_data result : pydict) (st : stats * list pyval)
  : stats * list pyval :=
  let '(s, detailed_results) := st in
  match default (PyInt 0) (Dict.get "open_ports" result) with
  | PyInt open_ports =>
      let s := add_open_ports open_ports s in
      let '(names, finished) :=
        collect_services (default (PyList []) (Dict.get "services" result))
          (unique_services s) in
      let s := with_services names s in
      if finished then
        match Dict.get "target_ip" result with
        | Some target_ip =>
            let os_info := default PyNone (Dict.get "os_info" result) in
            let s :=
              if truthy os_info
              then add_os (PyDict [("ip", target_ip); ("os", os_info)]) s
              else s in
            (add_timeline
               (PyDict [("ip", target_ip);
                        ("timestamp", default PyNone (Dict.get "timestamp" scan_data));
                        ("status",
                         default (PyStr "unknown") (Dict.get "host_status" result))])
               s,
             detailed_results ++ [PyDict scan_data])
        | None => (s, detailed_results)
        end
      else (s, detailed_results)
  | _ => (s, detailed_results)
  end.

(** The body of the [try] for one metadata file, lines 998-1034: [file]
    is what [json.load] returned or raised; the state is [stats] and
    [detailed_results].  An exception leaves what was counted before it. *)
Definition process_file (file : res pyval) (st : stats * list pyval)
  : stats * list pyval :=
  match file with
  | Ok (PyDict scan_data) =>
      let s := count_scanned st.1 in
      match default (PyDict []) (Dict.get "scan_result" scan_data) with
      | PyDict result =>
          process_result scan_data result (count_host (status_is_up result) s, st.2)
      | _ => (s, st.2)
      end
  | _ => st
  end.

(** The loop of [aggregate_project_results] over the metadata files. *)
Definition aggregate (files : list (res pyval)) : stats * list pyval :=
  fold_left (fun st file => process_file file st) files (initial_stats, []).

(** A metadata file as [save_scan_metadata] writes it, read back. *)
Definition metadata_of (target_ip : string) (result options : pydict)
    (timestamp : string) : res pyval :=
  Ok (PyDict [("target_ip", PyStr target_ip);
              ("scan_result", PyDict result);
              ("scan_options", PyDict options);
              ("timestamp", PyStr timestamp)]).

(** The host of the stored result is reported up. *)
Definition stored_up (file : res pyval) : bool :=
  match file with
  | Ok (PyDict scan_data) =>
      match Dict.get "scan_result" scan_data with
      | Some (PyDict result) => status_is_up result
      | _ => false
      end
  | _ => false
  end.

(** The file holds a dictionary whose scan result is a dictionary. *)
Definition well_formed (file : res pyval) : bool :=
  match file with
  | Ok (PyDict scan_data) =>
      match Dict.get "scan_result" scan_data with
      | Some (PyDict _) | None => true
      | _ => false
      end
  | _ => false
  end.

End Aggregate.

(** ** nmap_scanner.py: the sweep of abandoned scans *)

Module Sweep.

(** The first loop of [cleanup_abandoned_scans], over
    [self.active_scans.items()]: [items] are the session ids in the order
    the dictionary yields them, [abandoned] says whose age is above the
    limit, [cw] is what the process of each job answers.  When the size of
    the dictionary has changed under the running iteration (the cancel, or
    the scan thread during the cancel, deleted the job), the next step of
    the iteration raises [RuntimeError].
    The result is the registry, the process calls made, and either the
    list [sessions_to_remove] or the exception. *)
Fixpoint sweep_loop (abandoned : string -> bool) (cw : string -> cancel_world)
    (items : list string) (active_scans : gmap string scan_info)
    (sessions_to_remove : list string)
  : gmap string scan_info * list proc_action * res (list string) :=
  match items with
  | [] => (active_scans, [], Ok sessions_to_remove)
  | session_id :: rest =>
      if abandoned session_id then
        let '(active_scans', calls, _) :=
          Scanner.cancel_scan (cw session_id) session_id active_scans in
        if negb (Nat.eqb (size active_scans') (size active_scans)) then
          (active_scans', calls, Raise "dictionary changed size during iteration")
        else
          let '(reg, calls', r) :=
            sweep_loop abandoned cw rest active_scans'
              (sessions_to_remove ++ [session_id]) in
          (reg, calls ++ calls', r)
      else sweep_loop abandoned cw rest active_scans sessions_to_remove
  end.

(** [NmapScanner.cleanup_abandoned_scans]: when the first loop ends, the
    ids collected are deleted from the registry where still there. *)
Definition cleanup_abandoned_scans (abandoned : string -> bool)
    (cw : string -> cancel_world) (items : list string)
    (active_scans : gmap string scan_info)
  : gmap string scan_info * list proc_action * res unit :=
  let '(reg, calls, r) := sweep_loop abandoned cw items active_scans [] in
  match r with
  | Ok sessions_to_remove =>
      (fold_left (fun reg session_id => delete session_id reg) sessions_to_remove reg,
       calls, Ok tt)
  | Raise e => (reg, calls, Raise e)
  end.

End Sweep.

(** * Properties *)

(** ** Strings *)

Section StringFacts.
Import PyStr.

Lemma contains_app c a b : contains c (a +:+ b) = contains c a || contains c b.
Proof.
  induction a as [|d a IH]; simpl; [reflexivity|].
  destruct (Ascii.eqb d c); [reflexivity | exact IH].
Qed.

Lemma contains_of_list c l :
  contains c (string_of_list_ascii l) = existsb (fun d => Ascii.eqb d c) l.
Proof.
  induction l as [|d l IH]; simpl; [reflexivity|].
  rewrite IH. destruct (Ascii.eqb d c); reflexivity.
Qed.

Lemma contains_to_list c s :
  contains c s = existsb (fun d => Ascii.eqb d c) (list_ascii_of_string s).
Proof.
  rewrite <- (string_of_list_ascii_of_string s) at 1. apply contains_of_list.
Qed.

Lemma existsb_reverse {A} (f : A -> bool) l : existsb f (List.rev l) = existsb f l.
Proof.
  induction l as [|x l IH]; simpl; [reflexivity|].
  rewrite existsb_app, IH. simpl. rewrite orb_false_r. apply orb_comm.
Qed.

Lemma contains_rev c s : contains c (rev s) = contains c s.
Proof.
  unfold rev. rewrite contains_of_list, contains_to_list.
  apply existsb_reverse.
Qed.

Lemma contains_lstrip c s : isspace c = false -> contains c (lstrip s) = contains c s.
Proof.
  intros Hc. induction s as [|d s IH]; simpl; [reflexivity|].
  destruct (isspace d) eqn:Hd; simpl; [|reflexivity].
  rewrite IH. destruct (Ascii.eqb_spec d c); [congruence | reflexivity].
Qed.

Lemma contains_strip c s : isspace c = false -> contains c (strip s) = contains c s.
Proof.
  intros Hc. unfold strip, rstrip.
  rewrite contains_rev, contains_lstrip, contains_rev, contains_lstrip by exact Hc.
  reflexivity.
Qed.

(** Where the separator occurs, [split1] cuts the string in two, and a
    character of the string is in one of the halves or is the separator. *)
Lemma split1_two sep s :
  contains sep s = true ->
  exists a b, split1 sep s = [a; b] /\
    forall c, Ascii.eqb c sep = false ->
      contains c s = contains c a || contains c b.
Proof.
  induction s as [|d s IH]; simpl; [discriminate|].
  destruct (Ascii.eqb_spec d sep) as [->|Hd].
  - intros _. exists EmptyString, s. split; [reflexivity|].
    intros c Hc. simpl. rewrite Ascii.eqb_sym, Hc. reflexivity.
  - intros Hs. destruct (IH Hs) as (a & b & -> & Hab).
    exists (String d a), b. split; [reflexivity|].
    intros c Hc. simpl. rewrite (Hab c Hc). destruct (Ascii.eqb d c); reflexivity.
Qed.

Lemma join_cons sep y l : l <> [] -> join sep (y :: l) = y +:+ sep +:+ join sep l.
Proof. destruct l; [congruence | reflexivity]. Qed.

Lemma set_last_not_nil l x : l <> [] -> IPProcessor.set_last l x <> [].
Proof. destruct l as [|y [|z l]]; simpl; congruence. Qed.

Lemma contains_join_set_last c sep l x :
  l <> [] -> contains c x = true ->
  contains c (join sep (IPProcessor.set_last l x)) = true.
Proof.
  intros Hl Hx. induction l as [|y l IH]; [congruence|].
  destruct l as [|z l]; [exact Hx|].
  change (IPProcessor.set_last (y :: z :: l) x)
    with (y :: IPProcessor.set_last (z :: l) x).
  rewrite join_cons by (apply set_last_not_nil; discriminate).
  rewrite !contains_app, IH by discriminate.
  rewrite !orb_true_r. reflexivity.
Qed.

Lemma split_not_nil sep s : split sep s <> [].
Proof.
  destruct s as [|d s]; simpl; [discriminate|].
  destruct (Ascii.eqb d sep); [discriminate|].
  destruct (split sep s); discriminate.
Qed.

End StringFacts.

(** ** Target expansion *)

Section Expansion.
Import PyStr IPProcessor.

Lemma ip_address_slash s : contains "/" s = true -> exists e, ip_address s = Raise e.
Proof. intros H. unfold ip_address. rewrite H. eauto. Qed.

Lemma bind_ok {A B} (m : res A) (k : A -> res B) b :
  m ≫= k = Ok b -> exists a, m = Ok a /\ k a = Ok b.
Proof. destruct m as [a|e]; simpl; [eauto | discriminate]. Qed.

(** A line whose bounds can be read has no ['/'] in it. *)
Lemma range_bounds_no_slash line s e :
  contains "-" line = true -> range_bounds line = Ok (s, e) ->
  contains "/" line = false.
Proof.
  intros Hd Hb. destruct (split1_two "-" line Hd) as (a & b & Hsp & Hc).
  rewrite (Hc "/"%char eq_refl). unfold range_bounds in Hb. rewrite Hsp in Hb.
  assert (Ha : contains "/" (strip a) = false).
  { destruct (contains "/" (strip a)) eqn:E; [|reflexivity].
    destruct (ip_address_slash _ E) as [x Hx].
    destruct (contains "." (strip b)); simpl in Hb; rewrite Hx in Hb; discriminate. }
  assert (Hb' : contains "/" (strip b) = false).
  { destruct (contains "/" (strip b)) eqn:E; [|reflexivity].
    destruct (contains "." (strip b)).
    - destruct (ip_address_slash _ E) as [x Hx].
      apply bind_ok in Hb as (? & _ & Hb). rewrite Hx in Hb. discriminate.
    - destruct (ip_address_slash (join "." (set_last (split "." (strip a)) (strip b))))
        as [x Hx].
      { apply contains_join_set_last; [apply split_not_nil | exact E]. }
      apply bind_ok in Hb as (? & _ & Hb). rewrite Hx in Hb. discriminate. }
  rewrite contains_strip in Ha, Hb' by reflexivity. rewrite Ha, Hb'. reflexivity.
Qed.

(** Nor does it start with ['-']: the start address would be empty. *)
Lemma range_bounds_no_dash_first line s e :
  range_bounds line = Ok (s, e) -> startswith "-" line = false.
Proof.
  destruct line as [|d line]; [reflexivity|]. simpl.
  destruct (Ascii.eqb_spec d "-") as [->|]; [|reflexivity].
  unfold range_bounds. simpl.
  intros H. destruct (contains _ (strip line)) in H; discriminate H.
Qed.

Lemma seqZ_step (m n : Z) : 0 < n -> seqZ m n = m :: seqZ (m + 1) (n - 1).
Proof.
  intros Hn. rewrite (seqZ_cons m n) by lia. reflexivity.
Qed.

(** The loop, once and for all: it appends the addresses from [current]
    to [end_], and stops by itself when the list has 1001 entries. *)
Lemma range_loop_spec fuel : forall end_ current ips,
  end_ < ALL_ONES ->
  (length ips <= 1000)%nat ->
  (1001 - length ips <= fuel)%nat ->
  range_loop fuel end_ current ips =
    Some (Ok (ips ++ addresses current
                      (Z.min (end_ - current + 1) (1001 - Z.of_nat (length ips))))).
Proof.
  induction fuel as [|fuel IH]; intros end_ current ips He Hl Hf; [lia|].
  simpl. destruct (Z.leb_spec current end_) as [Hle|Hgt].
  - unfold ip_succ. destruct (Z.ltb_spec ALL_ONES (current + 1)) as [|_]; [lia|].
    rewrite length_app. simpl length.
    destruct (Nat.ltb_spec 1000 (length ips + 1)) as [Hfull|Hroom].
    + assert (Hn : length ips = 1000%nat) by lia.
      rewrite Hn. replace (Z.min _ _) with 1 by lia. reflexivity.
    + rewrite IH by (rewrite ?length_app; simpl; lia).
      rewrite length_app. simpl length. rewrite <- app_assoc. do 3 f_equal.
      unfold addresses. rewrite (seqZ_step current) by lia. simpl. do 3 f_equal. lia.
  - unfold addresses. rewrite seqZ_nil by lia. simpl. rewrite app_nil_r.
    destruct fuel; reflexivity.
Qed.

(** The fuel [expand_range] gives the loop is always enough. *)
Lemma range_loop_total fuel : forall end_ current ips,
  (length ips <= 1000)%nat ->
  (1001 - length ips <= fuel)%nat ->
  range_loop fuel end_ current ips <> None.
Proof.
  induction fuel as [|fuel IH]; intros end_ current ips Hl Hf; [lia|].
  simpl. destruct (current <=? end_); [|discriminate].
  destruct (ip_succ current) as [next|]; [|discriminate].
  rewrite length_app. simpl length.
  destruct (Nat.ltb_spec 1000 (length ips + 1)); [discriminate|].
  apply IH; rewrite length_app; simpl; lia.
Qed.

(** What [expand_range] does on a readable range below the top address:
    the addresses from the start bound on, up to the end bound and at most
    1001 of them. *)
Lemma expand_range_enumerates line s e :
  contains "-" line = true -> range_bounds line = Ok (s, e) -> e < ALL_ONES ->
  expand_range line = addresses s (Z.min (e - s + 1) 1001).
Proof.
  intros Hd Hb He. unfold expand_range. rewrite Hd, Hb. simpl negb. cbv iota.
  rewrite range_loop_spec by (simpl; unfold range_fuel; lia). reflexivity.
Qed.

Lemma range_loop_reversed fuel end_ current ips :
  end_ < current -> range_loop fuel end_ current ips = Some (Ok ips).
Proof.
  intros H. destruct fuel; simpl; destruct (Z.leb_spec current end_); (lia || reflexivity).
Qed.

Lemma expand_range_reversed line s e :
  contains "-" line = true -> range_bounds line = Ok (s, e) -> e < s ->
  expand_range line = [].
Proof.
  intros Hd Hb He. unfold expand_range. rewrite Hd, Hb. simpl negb. cbv iota.
  rewrite range_loop_reversed by exact He. reflexivity.
Qed.

Lemma process_lines_concat expand_cidr lines :
  process_lines expand_cidr lines = concat (map (process_line expand_cidr) lines).
Proof.
  unfold process_lines.
  enough (H : forall acc, fold_left (fun ip_list line => ip_list ++ process_line expand_cidr line) lines acc
                = acc ++ concat (map (process_line expand_cidr) lines)) by apply (H []).
  induction lines as [|l ls IH]; intros acc; simpl.
  - rewrite app_nil_r. reflexivity.
  - rewrite IH, app_assoc. reflexivity.
Qed.

End Expansion.

(** ** Claims on target expansion *)

Section ExpansionClaims.
Import PyStr IPProcessor.

(** At the top of the address space the loop does not end the list: the
    step past 255.255.255.255 raises and the line comes back as it is. *)
Lemma expand_range_top_address :
  expand_range "255.255.255.254-255.255.255.255" = ["255.255.255.254-255.255.255.255"].
Proof. vm_compute. reflexivity. Qed.

(** The scenario of the specification: "10.0.0.1-3". *)
Lemma expand_range_scenario :
  process_input (fun _ => []) "10.0.0.1-3" =
    [Target "10.0.0.1" []; Target "10.0.0.2" []; Target "10.0.0.3" []].
Proof. vm_compute. reflexivity. Qed.

(** C1 (code defect): the range 10.0.0.0-10.0.4.0 has its start below its
    end and holds 1025 addresses; [expand_range] returns 1001 of them, one
    more than the cap of 1000, the last being 10.0.3.232. *)
Theorem C1_range_cap_off_by_one :
  range_bounds "10.0.0.0-10.0.4.0" = Ok (167772160, 167773184) /\
  length (expand_range "10.0.0.0-10.0.4.0") = 1001%nat /\
  last (expand_range "10.0.0.0-10.0.4.0") = Some "10.0.3.232" /\
  expand_range "10.0.0.0-10.0.4.0" = addresses 167772160 1001.
Proof.
  split; [vm_compute; reflexivity|]. split; [vm_compute; reflexivity|].
  split; vm_compute; reflexivity.
Qed.

(** C10: a range line whose bounds can be read and whose start address is
    above its end address expands to the empty list, and [process_input]
    takes nothing from that line: the lines before and after it give the
    same targets as if it were not there. *)
Theorem C10_reversed_range_contributes_nothing
    (expand_cidr : string -> list string) (line : string) (s e : Z)
    (before after : list string) :
  contains "-" line = true ->
  range_bounds line = Ok (s, e) ->
  e < s ->
  expand_range line = [] /\
  process_line expand_cidr line = [] /\
  process_lines expand_cidr (before ++ line :: after) =
    process_lines expand_cidr (before ++ after).
Proof.
  intros Hd Hb Hlt.
  assert (Hr : expand_range line = []) by exact (expand_range_reversed line s e Hd Hb Hlt).
  assert (Hp : process_line expand_cidr line = []).
  { unfold process_line.
    rewrite (range_bounds_no_slash line s e Hd Hb), Hd,
            (range_bounds_no_dash_first line s e Hb), Hr. reflexivity. }
  repeat split; [exact Hr | exact Hp |].
  rewrite !process_lines_concat, !map_app, !concat_app. simpl. rewrite Hp. reflexivity.
Qed.

Lemma C10_witness :
  contains "-" "10.0.0.5-2" = true /\
  range_bounds "10.0.0.5-2" = Ok (167772165, 167772162) /\
  167772162 < 167772165 /\
  expand_range "10.0.0.5-2" = [] /\
  process_input (fun _ => []) "10.0.0.1
10.0.0.5-2
10.0.0.9" = [Target "10.0.0.1" []; Target "10.0.0.9" []].
Proof.
  assert (H := C10_reversed_range_contributes_nothing (fun _ => []) "10.0.0.5-2"
                 167772165 167772162 ["10.0.0.1"] ["10.0.0.9"]
                 eq_refl eq_refl eq_refl).
  destruct H as (H1 & _ & H3).
  split; [reflexivity|]. split; [reflexivity|]. split; [reflexivity|].
  split; [exact H1|]. exact H3.
Defined.

End ExpansionClaims.

(** ** Dictionaries *)

Section DictFacts.

Lemma get_set k k' v (d : pydict) :
  Dict.get k (Dict.set k' v d) = if String.eqb k' k then Some v else Dict.get k d.
Proof.
  induction d as [|[k0 v0] d IH]; simpl.
  - reflexivity.
  - destruct (String.eqb_spec k0 k') as [->|Hne]; simpl.
    + destruct (String.eqb k' k); reflexivity.
    + rewrite IH. destruct (String.eqb_spec k0 k) as [->|_]; [|reflexivity].
      destruct (String.eqb_spec k' k) as [->|_]; [congruence | reflexivity].
Qed.

Lemma get_set_ne k k' v (d : pydict) :
  k' <> k -> Dict.get k (Dict.set k' v d) = Dict.get k d.
Proof.
  intros H. rewrite get_set. destruct (String.eqb_spec k' k); [congruence | reflexivity].
Qed.

End DictFacts.

(** Case analysis on every [match] of the goal, then the reads of the
    dictionary through its writes, for keys that are literals. *)
Ltac split_matches :=
  repeat match goal with
         | |- context [match ?x with _ => _ end] => destruct x eqn:?
         end.

Ltac read_dict :=
  cbn [Dict.update fold_left fst snd]; rewrite ?get_set; try reflexivity.

(** ** The result parsers *)

Section ParserFacts.
Import ET.

(** The two loops over the port nodes agree with [map] and [filter]. *)
Lemma app_ports_loop ports : forall acc n,
  AppParser.ports_loop ports (acc, n) =
    (acc ++ map (fun p => PyDict (AppParser.port_entry p)) ports,
     n + Z.of_nat (length (filter
            (fun p => AppParser.state_is_open (AppParser.port_entry p) = true) ports))).
Proof.
  unfold AppParser.ports_loop.
  induction ports as [|p ports IH]; intros acc n; simpl.
  - rewrite app_nil_r, Z.add_0_r. reflexivity.
  - rewrite IH, <- app_assoc. simpl. f_equal.
    rewrite filter_cons. destruct (AppParser.state_is_open (AppParser.port_entry p)).
    + rewrite decide_True by reflexivity. simpl length. lia.
    + rewrite decide_False by discriminate. reflexivity.
Qed.

Lemma scanner_ports_loop ports : forall acc n,
  ScannerParser.ports_loop ports (acc, n) =
    (acc ++ map (fun p => PyDict (ScannerParser.port_entry p)) ports,
     n + Z.of_nat (length (filter
            (fun p => ScannerParser.state_is_open (ScannerParser.port_entry p) = true) ports))).
Proof.
  unfold ScannerParser.ports_loop.
  induction ports as [|p ports IH]; intros acc n; simpl.
  - rewrite app_nil_r, Z.add_0_r. reflexivity.
  - rewrite IH, <- app_assoc. simpl. f_equal.
    rewrite filter_cons. destruct (ScannerParser.state_is_open (ScannerParser.port_entry p)).
    + rewrite decide_True by reflexivity. simpl length. lia.
    + rewrite decide_False by discriminate. reflexivity.
Qed.

(** What an entry holds under ['state'] decides as the state attribute of
    the node does. *)
Lemma app_state_is_open port :
  AppParser.state_is_open (AppParser.port_entry port) = port_is_open port.
Proof.
  unfold AppParser.state_is_open, AppParser.port_entry, port_is_open, get.
  destruct (find "state" port) as [st|];
    destruct (find "service" port); destruct (findall "script" port);
    read_dict; destruct (lookup_attr "state" (attrib st)); reflexivity.
Qed.

Lemma scanner_state_is_open port :
  ScannerParser.state_is_open (ScannerParser.port_entry port) = port_is_open port.
Proof.
  unfold ScannerParser.state_is_open, ScannerParser.port_entry, port_is_open, get.
  destruct (find "state" port) as [st|];
    destruct (find "service" port) as [sv|]; try destruct (findall "cpe" sv);
    destruct (findall "script" port);
    read_dict; destruct (lookup_attr "state" (attrib st)); reflexivity.
Qed.

Lemma filter_ext_bool {A} (f g : A -> bool) (l : list A) :
  (forall x, f x = g x) ->
  filter (fun x => f x = true) l = filter (fun x => g x = true) l.
Proof.
  intros H. induction l as [|x l IH]; [reflexivity|].
  rewrite !filter_cons, IH, H. reflexivity.
Qed.

End ParserFacts.

(** ** How the parser stages read and write the result *)

Section StageFacts.
Import ET.

(** *** app.py *)

Lemma app_parse_runstats_frame root result k :
  k <> "scan_summary" ->
  Dict.get k (AppParser.parse_runstats root result) = Dict.get k result.
Proof.
  intros H. unfold AppParser.parse_runstats.
  destruct (find "runstats" root) as [rs|]; [|reflexivity].
  destruct (find "finished" rs); [|reflexivity].
  apply get_set_ne. congruence.
Qed.


Lemma app_services host :
  Dict.get "services" (AppParser.parse_host host AppParser.initial_result) =
    Some (PyList match find "ports" host with
                 | Some ports => (AppParser.ports_loop (findall "port" ports) ([], 0)).1
                 | None => []
                 end).
Proof.
  unfold AppParser.parse_host.
  destruct (find "status" host); destruct (find "hostnames" host);
    destruct (find "ports" host); destruct (find "os" host) as [o|];
    try destruct (find "osmatch" o); read_dict.
Qed.

Lemma app_open_ports host :
  Dict.get "open_ports" (AppParser.parse_host host AppParser.initial_result) =
    Some (PyInt match find "ports" host with
                | Some ports => (AppParser.ports_loop (findall "port" ports) ([], 0)).2
                | None => 0
                end).
Proof.
  unfold AppParser.parse_host.
  destruct (find "status" host); destruct (find "hostnames" host);
    destruct (find "ports" host); destruct (find "os" host) as [o|];
    try destruct (find "osmatch" o); read_dict.
Qed.

(** *** nmap_scanner.py *)

Lemma scanner_parse_scaninfo_frame root result k :
  k <> "scan_info" ->
  Dict.get k (ScannerParser.parse_scaninfo root result) = Dict.get k result.
Proof.
  intros H. unfold ScannerParser.parse_scaninfo.
  destruct (find "scaninfo" root); [|reflexivity].
  apply get_set_ne. congruence.
Qed.

Lemma scanner_mac_frame addresses : forall result k,
  k <> "mac_vendor" -> k <> "mac_address" ->
  Dict.get k
    (fold_left
       (fun result address =>
          match lookup_attr "addrtype" (attrib address) with
          | Some "mac" =>
              Dict.set "mac_vendor" (get_d address "vendor" "")
                (Dict.set "mac_address" (get address "addr") result)
          | _ => result
          end) addresses result) = Dict.get k result.
Proof.
  induction addresses as [|a addresses IH]; intros result k H1 H2; simpl.
  - reflexivity.
  - rewrite IH by assumption.
    destruct (lookup_attr "addrtype" (attrib a)) as [t|]; [|reflexivity].
    destruct (String.eqb_spec t "mac") as [->|Hne].
    + rewrite !get_set_ne by congruence. reflexivity.
    + repeat (destruct t as [|[[] [] [] [] [] [] [] []] t]; try reflexivity).
      congruence.
Qed.


Lemma scanner_parse_identity_frame host result k :
  k <> "host_status" -> k <> "host_status_reason" -> k <> "hostnames" ->
  k <> "mac_vendor" -> k <> "mac_address" ->
  Dict.get k (ScannerParser.parse_identity host result) = Dict.get k result.
Proof.
  intros. unfold ScannerParser.parse_identity.
  rewrite scanner_mac_frame by assumption.
  destruct (find "status" host); destruct (find "hostnames" host);
    rewrite ?get_set_ne by congruence; reflexivity.
Qed.

(** When no [int] raises, the ports stage writes the two port fields and
    leaves the other keys but ['extraports'] alone. *)
Lemma scanner_parse_ports_ok host result result' :
  ScannerParser.parse_ports host result = Ok result' ->
  (forall k, k <> "extraports" -> k <> "services" -> k <> "open_ports" ->
     Dict.get k result' = Dict.get k result) /\
  match find "ports" host with
  | Some ports =>
      Dict.get "services" result' =
        Some (PyList (ScannerParser.ports_loop (findall "port" ports) ([], 0)).1) /\
      Dict.get "open_ports" result' =
        Some (PyInt (ScannerParser.ports_loop (findall "port" ports) ([], 0)).2)
  | None => result' = result
  end.
Proof.
  unfold ScannerParser.parse_ports.
  destruct (find "ports" host) as [ports|].
  - destruct (find "extraports" ports) as [x|]; simpl.
    + destruct (ScannerParser.int_attr x "count") as [c|]; simpl; [|discriminate].
      intros [= <-]. split; [|split; read_dict].
      intros k H1 H2 H3. rewrite !get_set_ne by congruence. reflexivity.
    + intros [= <-]. split; [|split; read_dict].
      intros k H1 H2 H3. rewrite !get_set_ne by congruence. reflexivity.
  - intros [= <-]. split; reflexivity.
Qed.

Lemma scanner_parse_os_frame host result k :
  k <> "os_accuracy" -> k <> "os_info" -> k <> "os_classes" -> k <> "os_portused" ->
  Dict.get k (ScannerParser.parse_os host result) = Dict.get k result.
Proof.
  intros. unfold ScannerParser.parse_os.
  destruct (find "os" host) as [o|]; [|reflexivity].
  destruct (findall "osmatch" o) as [|m ?]; [|destruct (findall "osclass" m)];
    destruct (find "portused" o);
    rewrite ?get_set_ne by congruence; reflexivity.
Qed.

Lemma scanner_parse_extras_frame host result k :
  k <> "host_scripts" -> k <> "traceroute" -> k <> "scan_times" ->
  Dict.get k (ScannerParser.parse_extras host result) = Dict.get k result.
Proof.
  intros. unfold ScannerParser.parse_extras.
  destruct (findall2 "hostscript" "script" host); destruct (find "trace" host);
    destruct (find "times" host);
    rewrite ?get_set_ne by congruence; reflexivity.
Qed.

Lemma scanner_parse_runstats_ok root result result' k :
  ScannerParser.parse_runstats root result = Ok result' ->
  k <> "scan_summary" -> k <> "hosts_summary" ->
  Dict.get k result' = Dict.get k result.
Proof.
  unfold ScannerParser.parse_runstats. intros Hr H1 H2.
  destruct (find "runstats" root) as [rs|]; [|injection Hr as <-; reflexivity].
  destruct (find "hosts" rs) as [h|].
  - destruct (ScannerParser.int_attr h "up"); simpl in Hr; [|discriminate].
    destruct (ScannerParser.int_attr h "down"); simpl in Hr; [|discriminate].
    destruct (ScannerParser.int_attr h "total"); simpl in Hr; [|discriminate].
    injection Hr as <-.
    destruct (find "finished" rs); rewrite ?get_set_ne by congruence; reflexivity.
  - injection Hr as <-.
    destruct (find "finished" rs); rewrite ?get_set_ne by congruence; reflexivity.
Qed.

(** The stages of [parse_root] for a host that is there. *)
Lemma scanner_parse_root_host root host result :
  find "host" root = Some host ->
  ScannerParser.parse_root root = Ok result ->
  exists r1,
    ScannerParser.parse_ports host
      (ScannerParser.parse_identity host
         (ScannerParser.parse_scaninfo root ScannerParser.initial_result)) = Ok r1 /\
    ScannerParser.parse_runstats root
      (ScannerParser.parse_extras host (ScannerParser.parse_os host r1)) = Ok result.
Proof.
  unfold ScannerParser.parse_root. intros -> H.
  apply bind_ok in H as (r1 & H1 & H2). eauto.
Qed.

End StageFacts.

(** ** Claims on the result parser *)

Section ParserClaims.
Import ET.





(** C3, as stated, fails: for a port node without a service sub-node the
    entry has no service, product or version key at all. *)
Lemma C3_bare_port_has_no_service_keys :
  find "service" Sample.port_without_service = None /\
  Dict.get "service" (AppParser.port_entry Sample.port_without_service) = None /\
  Dict.get "product" (AppParser.port_entry Sample.port_without_service) = None /\
  Dict.get "version" (AppParser.port_entry Sample.port_without_service) = None /\
  Dict.get "service" (ScannerParser.port_entry Sample.port_without_service) = None /\
  Dict.get "product" (ScannerParser.port_entry Sample.port_without_service) = None /\
  Dict.get "version" (ScannerParser.port_entry Sample.port_without_service) = None.
Proof. vm_compute. repeat split; reflexivity. Qed.

(** C3, amended: the entry of a port node without a service sub-node
    holds no service, product or version key; when the sub-node is there
    the three keys are always present, each with the attribute's value or
    the empty string when the attribute is missing. *)
Theorem C3_service_fields port :
  match find "service" port with
  | None =>
      Forall (fun k => Dict.get k (AppParser.port_entry port) = None /\
                       Dict.get k (ScannerParser.port_entry port) = None)
             ["service"; "product"; "version"]
  | Some service =>
      Forall (fun kv =>
                Dict.get kv.1 (AppParser.port_entry port) = Some (get_d service kv.2 "") /\
                Dict.get kv.1 (ScannerParser.port_entry port) = Some (get_d service kv.2 ""))
             [("service", "name"); ("product", "product"); ("version", "version")]
  end.
Proof.
  unfold AppParser.port_entry, ScannerParser.port_entry.
  destruct (find "service" port) as [sv|]; destruct (find "state" port);
    try destruct (findall "cpe" sv); destruct (findall "script" port);
    repeat constructor; read_dict.
Qed.

(** C4, as stated, fails: after a root-level failure the result has the
    parse error and none of the other fields. *)
Lemma C4_failed_parse_is_not_zero_filled :
  let r := AppParser.parse_nmap_xml (Raise "no element found: line 1, column 0") in
  let r' := ScannerParser.parse_nmap_xml (Raise "no element found: line 1, column 0") in
  Dict.get "parse_error" r = Some (PyStr "no element found: line 1, column 0") /\
  Dict.get "host_status" r = None /\ Dict.get "open_ports" r = None /\
  Dict.get "services" r = None /\ Dict.get "os_info" r = None /\
  Dict.get "hostnames" r = None /\
  Dict.get "host_status" r' = None /\ Dict.get "open_ports" r' = None /\
  Dict.get "services" r' = None /\ Dict.get "os_info" r' = None /\
  Dict.get "hostnames" r' = None.
Proof. vm_compute. repeat split; reflexivity. Qed.

(** C4, amended: for every artifact whose root-level read or parse fails
    the parser returns a result that holds the parse error and nothing
    else; hostStatus, openPortCount, services, osGuess and hostnames are
    absent.  The result is not discarded: the job result of
    [scan_single_ip], when the scan itself ran to its end, carries the
    parse error next to its own fields. *)
Theorem C4_parse_error_only (e : string) (w : world) (reg : gmap string scan_info)
    (t : IPProcessor.target) (o : options) (sid : string) (p : nat) :
  popen w = Ok p -> communicate_raises w = None ->
  xml_exists w = true -> xml w = Raise e -> save_metadata w = Ok tt ->
  AppParser.parse_nmap_xml (Raise e) = [("parse_error", PyStr e)] /\
  ScannerParser.parse_nmap_xml (Raise e) = [("parse_error", PyStr e)] /\
  let r := (App.scan_single_ip w reg t o sid).2 in
  Dict.get "parse_error" r = Some (PyStr e) /\
  Dict.get "target_ip" r = Some (PyStr (IPProcessor.ip t)) /\
  Dict.get "status" r = Some (PyStr (if returncode w =? 0 then "completed" else "failed")) /\
  Dict.get "host_status" r = None /\
  Dict.get "open_ports" r = None /\
  Dict.get "services" r = None.
Proof.
  intros Hp Hc Hx He Hs. split; [reflexivity|]. split; [reflexivity|].
  unfold App.scan_single_ip, App.submit.
  destruct (App.build_nmap_command w t o) as [cmd output_file].
  rewrite Hp. simpl mbind. cbv iota beta. rewrite Hc, Hx, He, Hs. simpl snd.
  unfold AppParser.parse_nmap_xml.
  repeat split; read_dict.
Qed.

Lemma C4_witness :
  let r := (App.scan_single_ip Sample.broken_xml_world ∅ Sample.T1 Sample.fast_T4 "s1").2 in
  Dict.get "parse_error" r = Some (PyStr "no element found: line 1, column 0") /\
  Dict.get "host_status" r = None.
Proof.
  destruct (C4_parse_error_only "no element found: line 1, column 0"
              Sample.broken_xml_world ∅ Sample.T1 Sample.fast_T4 "s1" 4242%nat
              eq_refl eq_refl eq_refl eq_refl eq_refl) as (_ & _ & H1 & _ & _ & H2 & _).
  split; [exact H1 | exact H2].
Defined.

(** C9, as stated, fails.  [artifact_with_two_hosts] is well formed and
    holds four port nodes, three of them open; both parsers read the first
    host only and report two services and one open port.  In
    nmap_scanner.py a count attribute that is no number leaves no
    [open_ports] at all, though the artifact holds an open port. *)
Lemma C9_later_hosts_are_not_counted :
  length (iter "port" Sample.artifact_with_two_hosts) = 4%nat /\
  count_open (iter "port" Sample.artifact_with_two_hosts) = 3 /\
  Dict.get "open_ports" (AppParser.parse_nmap_xml (Ok Sample.artifact_with_two_hosts))
    = Some (PyInt 1) /\
  Dict.get "open_ports" (ScannerParser.parse_nmap_xml (Ok Sample.artifact_with_two_hosts))
    = Some (PyInt 1) /\
  Dict.get "services" (AppParser.parse_nmap_xml (Ok Sample.artifact_with_two_hosts))
    = Some (PyList (map (fun p => PyDict (AppParser.port_entry p))
                      [Sample.port_without_service; Sample.port_with_service])) /\
  count_open (iter "port" artifact_with_bad_count) = 1 /\
  Dict.get "open_ports" (ScannerParser.parse_nmap_xml (Ok artifact_with_bad_count)) = None.
Proof. repeat split; vm_compute; reflexivity. Qed.

(** C9, amended: each port node of the first [ports] block of the first
    host contributes exactly one entry to [services], in order, and
    [open_ports] is the number of those port nodes whose state attribute
    is literally [open]; port nodes anywhere else in the artifact
    contribute nothing.  The parser of app.py cannot fail below the root.
    The one of nmap_scanner.py does so when an [int] raises on a count
    attribute; its result then holds the parse error alone. *)
Theorem C9_open_port_count root :
  (Dict.get "services" (AppParser.parse_nmap_xml (Ok root)) =
     Some (PyList (map (fun p => PyDict (AppParser.port_entry p)) (port_nodes root))) /\
   Dict.get "open_ports" (AppParser.parse_nmap_xml (Ok root)) =
     Some (PyInt (count_open (port_nodes root)))) /\
  (forall result, ScannerParser.parse_root root = Ok result ->
     ScannerParser.parse_nmap_xml (Ok root) = result /\
     Dict.get "services" result =
       Some (PyList (map (fun p => PyDict (ScannerParser.port_entry p)) (port_nodes root))) /\
     Dict.get "open_ports" result = Some (PyInt (count_open (port_nodes root)))) /\
  (forall e, ScannerParser.parse_root root = Raise e ->
     ScannerParser.parse_nmap_xml (Ok root) = [("parse_error", PyStr e)]).
Proof.
  assert (Hrun : ScannerParser.parse_nmap_xml (Ok root) =
                   match ScannerParser.parse_root root with
                   | Ok result => result
                   | Raise e => [("parse_error", PyStr e)]
                   end) by reflexivity.
  split; [|split].
  - unfold port_nodes, count_open. unfold AppParser.parse_nmap_xml.
    destruct (find "host" root) as [host|]; [|split; reflexivity].
    rewrite !app_parse_runstats_frame by discriminate.
    rewrite app_services, app_open_ports.
    destruct (find "ports" host) as [ports|]; [|split; reflexivity].
    rewrite app_ports_loop. simpl fst. simpl snd.
    rewrite (filter_ext_bool _ port_is_open) by apply app_state_is_open.
    split; reflexivity.
  - intros result Hr. split; [rewrite Hrun, Hr; reflexivity|].
    unfold port_nodes, count_open.
    destruct (find "host" root) as [host|] eqn:Hh.
    + destruct (scanner_parse_root_host root host result Hh Hr) as (r1 & H1 & H2).
      rewrite !(scanner_parse_runstats_ok _ _ _ _ H2) by discriminate.
      rewrite !scanner_parse_extras_frame, !scanner_parse_os_frame by discriminate.
      destruct (scanner_parse_ports_ok _ _ _ H1) as [_ Hp].
      destruct (find "ports" host) as [ports|].
      * destruct Hp as [-> ->]. rewrite scanner_ports_loop. simpl fst. simpl snd.
        rewrite (filter_ext_bool _ port_is_open) by apply scanner_state_is_open.
        split; reflexivity.
      * subst r1.
        rewrite !scanner_parse_identity_frame, !scanner_parse_scaninfo_frame by discriminate.
        split; reflexivity.
    + unfold ScannerParser.parse_root in Hr. rewrite Hh in Hr. injection Hr as <-.
      rewrite !scanner_parse_scaninfo_frame by discriminate. split; reflexivity.
  - intros e He. rewrite Hrun, He. reflexivity.
Qed.

Lemma C9_witness :
  Dict.get "open_ports" (ScannerParser.parse_nmap_xml (Ok Sample.artifact_with_ports))
    = Some (PyInt 1) /\
  Dict.get "open_ports" (AppParser.parse_nmap_xml (Ok Sample.artifact_with_ports))
    = Some (PyInt 1).
Proof.
  destruct (C9_open_port_count Sample.artifact_with_ports) as ([_ Ha] & Hs & _).
  split; [|exact Ha].
  destruct (Hs _ eq_refl) as (_ & _ & H). exact H.
Defined.

End ParserClaims.

(** ** The command builder and the clock *)

Section BuilderFacts.
Import PyStr IPProcessor.

Lemma of_Z_inj a b : of_Z a = of_Z b -> a = b.
Proof.
  unfold of_Z. intros H. apply DecimalZ.to_int_inj.
  assert (Hn : forall n, NilZero.int_of_string (NilZero.string_of_int (Z.to_int n))
                         = Some (Z.to_int n)).
  { intros n. apply NilZero.isi; destruct n; simpl; try discriminate;
      intros [= Hp]; exact (DecimalPos.Unsigned.to_uint_nonnil _ Hp). }
  pose proof (Hn a) as Ha. rewrite H, Hn in Ha. congruence.
Qed.

Lemma append_inj_r a b c : a +:+ b = a +:+ c -> b = c.
Proof. induction a as [|x a IH]; simpl; [auto | intros [= H]; auto]. Qed.

(** The basename is ["scan_" + safe_ip + "_" + str(timestamp)]. *)
Lemma build_basename presets dflt w t o :
  (Builder.build_nmap_command presets dflt w t o).2 =
    "scan_" +:+ replace ":" "_" (replace "." "_" (ip t)) +:+ "_" +:+
    of_Z (PyFloat.int_of_float (time_time w)).
Proof. reflexivity. Qed.

(** The builder looks at the world through [int(time.time())] only. *)
Lemma build_same_clock presets dflt w1 w2 t o :
  PyFloat.int_of_float (time_time w1) = PyFloat.int_of_float (time_time w2) ->
  Builder.build_nmap_command presets dflt w1 t o =
  Builder.build_nmap_command presets dflt w2 t o.
Proof. intros H. unfold Builder.build_nmap_command. rewrite H. reflexivity. Qed.

(** Two builds in different seconds give different basenames. *)
Lemma build_other_clock presets dflt w1 w2 t o :
  PyFloat.int_of_float (time_time w1) <> PyFloat.int_of_float (time_time w2) ->
  (Builder.build_nmap_command presets dflt w1 t o).2 <>
  (Builder.build_nmap_command presets dflt w2 t o).2.
Proof.
  intros H E. rewrite !build_basename in E.
  apply H, of_Z_inj.
  repeat (apply append_inj_r in E). exact E.
Qed.

(** The scenario of the specification: preset fast, timing T4, target
    10.0.0.5. *)
Lemma build_scenario :
  App.build_nmap_command Sample.good_world (Target "10.0.0.5" []) Sample.fast_T4 =
    (["nmap"; "-F"; "-T4";
      "-oX"; "scan_10_0_0_5_1700000000.xml";
      "-oN"; "scan_10_0_0_5_1700000000.nmap";
      "-oG"; "scan_10_0_0_5_1700000000.gnmap";
      "10.0.0.5"], "scan_10_0_0_5_1700000000").
Proof. vm_compute. reflexivity. Qed.

(** C7, as stated, fails: the timestamp is no input of the builder, which
    reads the clock itself; the same target and the same config, built
    one second apart, give two different command lines. *)
Lemma C7_same_inputs_other_argv :
  App.build_nmap_command Sample.good_world (Target "10.0.0.5" []) Sample.fast_T4 <>
  App.build_nmap_command Sample.later_world (Target "10.0.0.5" []) Sample.fast_T4.
Proof. vm_compute. discriminate. Qed.

(** C7, amended: the builder is a function of the target, the config and
    the whole second [int(time.time())] of the clock, which it reads
    itself: two runs on the same target and the same config whose clock
    readings fall in the same second yield identical argv and the same
    basename, in both classes, whatever else differs in the world. *)
Theorem C7_deterministic_up_to_clock (w1 w2 : world) (t : target) (o : options) :
  PyFloat.int_of_float (time_time w1) = PyFloat.int_of_float (time_time w2) ->
  App.build_nmap_command w1 t o = App.build_nmap_command w2 t o /\
  Scanner.build_nmap_command w1 t o = Scanner.build_nmap_command w2 t o.
Proof. intros H. split; apply build_same_clock; exact H. Qed.

Lemma C7_witness :
  time_time Sample.good_world <> time_time Sample.broken_xml_world /\
  App.build_nmap_command Sample.good_world Sample.T1 Sample.fast_T4 =
  App.build_nmap_command Sample.broken_xml_world Sample.T1 Sample.fast_T4.
Proof.
  split; [discriminate|].
  exact (proj1 (C7_deterministic_up_to_clock Sample.good_world
                  Sample.broken_xml_world Sample.T1 Sample.fast_T4 eq_refl)).
Defined.

End BuilderFacts.

(** ** The registry: submission and cancel *)

Section RegistryClaims.
Import IPProcessor.




(** When [terminate] raises, [cancel_scan] returns [False] and the job
    stays in the registry. *)
Lemma cancel_scan_raise w sid reg info e :
  reg !! sid = Some info -> terminate_raises w = Some e ->
  Scanner.cancel_scan w sid reg = (reg, [Terminate (process info)], false).
Proof. intros H1 H2. unfold Scanner.cancel_scan. rewrite H1, H2. reflexivity. Qed.

(** A cancel of a registered job whose process calls do not raise: the
    job is gone afterwards, and the call returns [True] unless the scan
    thread removed the job first. *)
Lemma cancel_scan_runs w sid reg info :
  reg !! sid = Some info ->
  terminate_raises w = None ->
  (still_running w = true -> kill_raises w = None) ->
  Scanner.cancel_scan w sid reg =
    (delete sid reg, cancel_calls (process info) (still_running w),
     negb (entry_removed w)).
Proof.
  intros Hi Ht Hk. unfold Scanner.cancel_scan, cancel_calls, Scanner.del_entry.
  rewrite Hi, Ht.
  destruct (still_running w); [rewrite (Hk eq_refl)|];
    destruct (entry_removed w); cbv iota beta;
    rewrite ?lookup_delete_eq, ?Hi; reflexivity.
Qed.






End RegistryClaims.

(** ** The session loop *)

Section SessionClaims.
Import IPProcessor.

Lemma outcome_targets_app a b :
  outcome_targets (a ++ b) = outcome_targets a ++ outcome_targets b.
Proof.
  induction a as [|e a IH]; [reflexivity|].
  destruct e; simpl; rewrite IH; reflexivity.
Qed.

Section AnyScanner.

Variable scanner_scan_single_ip :
  world -> gmap string scan_info -> target -> options -> string ->
  gmap string scan_info * res pydict.
Variable env : nat -> world.
Variables (o : options) (project_id sid : string) (total : nat).

Let step := App.scan_target scanner_scan_single_ip env o sid total.

(** One turn of the loop, whatever the scanner returns or raises: two
    events are emitted, the second being the result or the error of this
    target; the counter goes up by one and so does the session file. *)
Lemma scan_target_turn s completed t :
  exists reg result_or_error,
    outcome_targets [result_or_error] = [ip t] /\
    step (s, completed) t =
      (App.Session reg
         (match App.session_file s with
          | Some f => Some (SessionData (sd_status f) (S completed)
                              (sd_total_targets f) (sd_end_time f))
          | None => None
          end)
         (App.emitted s ++
            [scan_progress sid (ip t) completed total (Nat.eqb completed 0);
             result_or_error]),
       S completed).
Proof.
  unfold step, App.scan_target, App.emit. simpl.
  destruct (scanner_scan_single_ip (env completed) (App.active_scans s) t o sid)
    as [reg [result|e]]; simpl.
  - exists reg, (host_result sid (ip t) result). split; [reflexivity|].
    rewrite <- app_assoc. destruct (App.session_file s); reflexivity.
  - exists reg, (host_error sid (ip t) e). split; [reflexivity|].
    rewrite <- app_assoc. destruct (App.session_file s); reflexivity.
Qed.

(** The whole loop, by induction on the targets that are left. *)
Lemma scan_loop targets : forall s completed,
  exists reg new,
    outcome_targets new = map ip targets /\
    fold_left step targets (s, completed) =
      (App.Session reg
         (match App.session_file s, targets with
          | Some f, _ :: _ =>
              Some (SessionData (sd_status f) (completed + length targets)%nat
                      (sd_total_targets f) (sd_end_time f))
          | file, _ => file
          end)
         (App.emitted s ++ new),
       (completed + length targets)%nat).
Proof.
  induction targets as [|t targets IH]; intros s completed.
  - exists (App.active_scans s), []. split; [reflexivity|]. simpl.
    rewrite app_nil_r, Nat.add_0_r. destruct s as [? [?|] ?]; reflexivity.
  - change (fold_left step (t :: targets) (s, completed))
      with (fold_left step targets (step (s, completed) t)).
    destruct (scan_target_turn s completed t) as (reg1 & ev & Hev & ->).
    destruct (IH (App.Session reg1
                    (match App.session_file s with
                     | Some f => Some (SessionData (sd_status f) (S completed)
                                         (sd_total_targets f) (sd_end_time f))
                     | None => None
                     end)
                    (App.emitted s ++
                       [scan_progress sid (ip t) completed total (Nat.eqb completed 0); ev]))
                 (S completed)) as (reg & new & Hnew & ->).
    exists reg, ([scan_progress sid (ip t) completed total (Nat.eqb completed 0); ev] ++ new).
    split.
    + rewrite outcome_targets_app. simpl in Hev |- *.
      change (outcome_targets [ev]) with (outcome_targets ([ev] ++ [])) in Hev.
      destruct ev; simpl in Hev |- *; try discriminate; injection Hev as ->;
        rewrite Hnew; reflexivity.
    + simpl App.session_file. simpl App.emitted. simpl length.
      rewrite <- app_assoc, Nat.add_succ_r. simpl.
      destruct (App.session_file s); destruct targets; simpl;
        rewrite ?Nat.add_0_r; reflexivity.
Qed.

(** The session from start to end. *)
Lemma scan_ip_list_with_spec targets finish_iso s :
  exists reg new,
    outcome_targets new = map ip targets /\
    App.scan_ip_list_with scanner_scan_single_ip env o project_id sid total
      targets finish_iso s =
      App.Session reg
        (match App.session_file s with
         | Some f =>
             Some (SessionData "completed"
                     (match targets with
                      | [] => sd_completed_targets f
                      | _ => length targets
                      end)
                     (sd_total_targets f) (Some finish_iso))
         | None => None
         end)
        (App.emitted s ++ [scan_started sid total project_id] ++ new ++
           [scan_completed sid (length targets) total]).
Proof.
  unfold App.scan_ip_list_with.
  destruct (scan_loop targets (App.emit (scan_started sid total project_id) s) O)
    as (reg & new & Hnew & Hl).
  fold step. rewrite Hl. exists reg, new. split; [exact Hnew|].
  unfold App.emit. destruct s as [reg0 file evs]. cbn [App.session_file App.emitted
    App.active_scans Nat.add].
  destruct file as [f|]; destruct targets; cbn [App.session_file App.emitted
    App.active_scans sd_completed_targets sd_total_targets length];
    (f_equal; rewrite <- ?app_assoc; reflexivity).
Qed.

End AnyScanner.

(** C5: whatever happens to the single scans (an exit code that is not
    zero, a process that cannot be spawned, a broken artifact), the loop
    goes through the whole target list: the result-or-error events are
    exactly one per target, in the order of the list; the last event is
    [scan_completed] with the count equal to the number of targets; and
    the session file [start_scan] wrote ends with status ["completed"] and
    [completed_targets] equal to the number of targets. *)
Theorem C5_session_always_completes (env : nat -> world) (targets : list target)
    (o : options) (project_id sid finish_iso : string)
    (reg : gmap string scan_info) (earlier : list event) :
  let s := App.scan_ip_list env targets o project_id sid finish_iso
             (App.Session reg (Some (App.new_session_file targets)) earlier) in
  exists new,
    App.emitted s =
      earlier ++ [scan_started sid (length targets) project_id] ++ new ++
      [scan_completed sid (length targets) (length targets)] /\
    outcome_targets new = map ip targets /\
    App.session_file s =
      Some (SessionData "completed" (length targets) (length targets) (Some finish_iso)).
Proof.
  intros s. subst s. unfold App.scan_ip_list.
  match goal with
  | |- context [App.scan_ip_list_with ?f _ _ _ _ _ _ _ ?s0] =>
      destruct (scan_ip_list_with_spec f env o project_id sid (length targets)
                  targets finish_iso s0) as (reg' & new & Hnew & ->)
  end.
  exists new. simpl. repeat split; [exact Hnew|].
  destruct targets; reflexivity.
Qed.

(** The scenario of the specification: three targets, the second scan
    exits with code 1; the third is still scanned and the session ends
    completed with a count of three. *)
Lemma session_with_failing_target :
  let s := App.scan_ip_list Sample.second_fails [Sample.T1; Sample.T2; Sample.T3]
             Sample.fast_T4 "p1" "s1" "2024-01-01T00:02:00"
             (App.Session ∅
                (Some (App.new_session_file [Sample.T1; Sample.T2; Sample.T3])) []) in
  outcome_targets (App.emitted s) = ["10.0.0.1"; "10.0.0.2"; "10.0.0.3"] /\
  App.session_file s = Some (SessionData "completed" 3 3 (Some "2024-01-01T00:02:00")) /\
  last (App.emitted s) = Some (scan_completed "s1" 3 3) /\
  (exists r, App.emitted s !! 4%nat = Some (host_result "s1" "10.0.0.2" r) /\
             Dict.get "status" r = Some (PyStr "failed")) /\
  (exists r, App.emitted s !! 6%nat = Some (host_result "s1" "10.0.0.3" r) /\
             Dict.get "status" r = Some (PyStr "completed")).
Proof.
  vm_compute. split; [reflexivity|]. split; [reflexivity|]. split; [reflexivity|].
  split; eexists; split; reflexivity.
Qed.

End SessionClaims.

(** * Further properties *)

(** ** More on target expansion *)

Section MoreExpansion.
Import PyStr IPProcessor.

(** X1: a range whose bounds can be read and whose end is below
    255.255.255.255 expands to the addresses from the start bound upwards
    in steps of one, up to the end bound, cut after 1001 entries. *)
Theorem X1_expand_range_enumeration (line : string) (s e : Z) :
  contains "-" line = true -> range_bounds line = Ok (s, e) -> e < ALL_ONES ->
  expand_range line = addresses s (Z.min (e - s + 1) 1001) /\
  length (expand_range line) = Z.to_nat (Z.min (e - s + 1) 1001).
Proof.
  intros Hd Hb He. rewrite (expand_range_enumerates line s e Hd Hb He).
  split; [reflexivity|]. unfold addresses. rewrite length_map, length_seqZ. reflexivity.
Qed.

Lemma X1_witness :
  expand_range " 192.168.1.254 - 192.168.2.1 " =
    ["192.168.1.254"; "192.168.1.255"; "192.168.2.0"; "192.168.2.1"].
Proof.
  exact (proj1 (X1_expand_range_enumeration " 192.168.1.254 - 192.168.2.1 "
                  3232236030 3232236033 eq_refl eq_refl eq_refl)).
Defined.

Lemma range_loop_length fuel : forall end_ current ips ips',
  (length ips <= 1000)%nat ->
  range_loop fuel end_ current ips = Some (Ok ips') ->
  (length ips' <= 1001)%nat.
Proof.
  induction fuel as [|fuel IH]; intros end_ current ips ips' Hl; simpl.
  - destruct (current <=? end_); [discriminate|]. intros [= <-]. lia.
  - destruct (current <=? end_); [|intros [= <-]; lia].
    destruct (ip_succ current) as [next|]; [|discriminate].
    rewrite length_app. simpl length.
    destruct (Nat.ltb_spec 1000 (length ips + 1)).
    + intros [= <-]. rewrite length_app. simpl. lia.
    + apply IH. rewrite length_app. simpl. lia.
Qed.

(** X2: for every line without a colon (so that neither bound is an IPv6
    literal), whether its bounds can be read or not and wherever the range
    ends, [expand_range] returns at most 1001 entries. *)
Theorem X2_expand_range_bounded (line : string) :
  contains ":" line = false ->
  (length (expand_range line) <= 1001)%nat.
Proof.
  intros _. unfold expand_range. destruct (negb (contains "-" line)); [simpl; lia|].
  destruct (range_bounds line) as [[s e]|]; [|simpl; lia].
  destruct (range_loop range_fuel e s []) as [[ips|]|] eqn:Hl; try (simpl; lia).
  eapply range_loop_length; [|exact Hl]. simpl. lia.
Qed.

Lemma X2_witness :
  (length (expand_range "255.255.0.0-255.255.255.255") <= 1001)%nat.
Proof. exact (X2_expand_range_bounded "255.255.0.0-255.255.255.255" eq_refl). Defined.

Lemma range_loop_overflow (n : nat) : forall fuel current ips,
  current <= ALL_ONES ->
  Z.to_nat (ALL_ONES - current) = n ->
  (length ips + n <= 1000)%nat ->
  (n < fuel)%nat ->
  exists e, range_loop fuel ALL_ONES current ips = Some (Raise e).
Proof.
  induction n as [|n IH]; intros fuel current ips Hc Hn Hl Hf;
    (destruct fuel as [|fuel]; [lia|]); simpl;
    destruct (Z.leb_spec current ALL_ONES) as [_|]; try lia; unfold ip_succ.
  - destruct (Z.ltb_spec ALL_ONES (current + 1)); [eauto | lia].
  - destruct (Z.ltb_spec ALL_ONES (current + 1)); [lia|].
    rewrite length_app. simpl length.
    destruct (Nat.ltb_spec 1000 (length ips + 1)); [lia|].
    apply IH; rewrite ?length_app; simpl; lia.
Qed.

(** X3: a range that ends at 255.255.255.255 and holds at most 1001
    addresses is not expanded: the step past the last address raises and
    the line comes back as the only entry. *)
Theorem X3_expand_range_top_of_space (line : string) (s : Z) :
  contains "-" line = true -> range_bounds line = Ok (s, ALL_ONES) ->
  ALL_ONES - 1000 <= s <= ALL_ONES ->
  expand_range line = [line].
Proof.
  intros Hd Hb Hs. unfold expand_range. rewrite Hd, Hb. simpl negb. cbv iota.
  destruct (range_loop_overflow (Z.to_nat (ALL_ONES - s)) range_fuel s [])
    as [e ->]; try reflexivity; unfold range_fuel; simpl length; lia.
Qed.

Lemma X3_witness :
  expand_range "255.255.255.250-255" = ["255.255.255.250-255"].
Proof.
  apply (X3_expand_range_top_of_space "255.255.255.250-255" 4294967290);
    [reflexivity | reflexivity | unfold ALL_ONES; lia].
Defined.

Lemma split_app sep a b :
  split sep (a +:+ String sep b) = split sep a ++ split sep b.
Proof.
  induction a as [|c a IH]; simpl.
  - rewrite Ascii.eqb_refl. reflexivity.
  - destruct (Ascii.eqb c sep); [rewrite IH; reflexivity|].
    rewrite IH. destruct (split sep a) eqn:E; [|reflexivity].
    exfalso. exact (split_not_nil sep a E).
Qed.

Lemma input_lines_app a b :
  input_lines (a +:+ String "010" b) = input_lines a ++ input_lines b.
Proof. unfold input_lines. rewrite split_app, filter_app, map_app. reflexivity. Qed.

(** X4: [process_input] works line by line and keeps the order: the
    targets of two texts joined by a newline are the targets of the first
    followed by the targets of the second. *)
Theorem X4_process_input_concatenates (expand_cidr : string -> list string)
    (a b : string) :
  process_input expand_cidr (a +:+ String "010" b) =
    process_input expand_cidr a ++ process_input expand_cidr b.
Proof.
  unfold process_input. rewrite input_lines_app, !process_lines_concat.
  rewrite map_app, concat_app. reflexivity.
Qed.

(** Trimming twice is trimming once. *)
Lemma lstrip_idem s : lstrip (lstrip s) = lstrip s.
Proof.
  induction s as [|c s IH]; [reflexivity|]. simpl.
  destruct (isspace c) eqn:E; [exact IH|]. simpl. rewrite E. reflexivity.
Qed.

Lemma rev_rev s : rev (rev s) = s.
Proof.
  unfold rev. rewrite list_ascii_of_string_of_list_ascii, List.rev_involutive.
  apply string_of_list_ascii_of_string.
Qed.

Lemma rev_cons c s : rev (String c s) = rev s +:+ String c EmptyString.
Proof.
  unfold rev. simpl.
  generalize (List.rev (list_ascii_of_string s)). intros l.
  induction l as [|x l IH]; simpl; [reflexivity | rewrite IH; reflexivity].
Qed.

Lemma rev_snoc s c : rev (s +:+ String c EmptyString) = String c (rev s).
Proof.
  rewrite <- (rev_rev s) at 1. rewrite <- rev_cons. apply rev_rev.
Qed.

Lemma lstrip_snoc s c :
  isspace c = false -> lstrip (s +:+ String c EmptyString) = lstrip s +:+ String c EmptyString.
Proof.
  intros Hc. induction s as [|d s IH]; simpl.
  - rewrite Hc. reflexivity.
  - destruct (isspace d); [exact IH | reflexivity].
Qed.

Lemma rstrip_cons c s : isspace c = false -> rstrip (String c s) = String c (rstrip s).
Proof.
  intros Hc. unfold rstrip. rewrite rev_cons, lstrip_snoc by exact Hc.
  apply rev_snoc.
Qed.

Lemma rstrip_idem s : rstrip (rstrip s) = rstrip s.
Proof. unfold rstrip. rewrite rev_rev, lstrip_idem. reflexivity. Qed.

Lemma lstrip_head s : lstrip s = EmptyString \/ exists c t, lstrip s = String c t /\ isspace c = false.
Proof.
  induction s as [|c s IH]; [left; reflexivity|]. simpl.
  destruct (isspace c) eqn:E; [exact IH | right; eauto].
Qed.

Lemma strip_idem s : strip (strip s) = strip s.
Proof.
  unfold strip. destruct (lstrip_head s) as [->|(c & t & -> & Hc)]; [reflexivity|].
  rewrite rstrip_cons by exact Hc. simpl. rewrite Hc.
  rewrite rstrip_cons by exact Hc. rewrite rstrip_idem. reflexivity.
Qed.

Lemma split1_head_clean sep s :
  match split1 sep s with
  | h :: _ => contains sep h = false
  | [] => False
  end.
Proof.
  induction s as [|c s IH]; simpl; [reflexivity|].
  destruct (Ascii.eqb c sep) eqn:E; [reflexivity|].
  destruct (split1 sep s); [contradiction|]. simpl. rewrite E. exact IH.
Qed.

(** X5: in what [parse_ip_with_ports] returns, the address is trimmed and
    has no colon when the line has one, and every port token is trimmed
    and not empty: empty tokens are dropped. *)
Theorem X5_parse_ip_with_ports_tokens (ip_port : string) :
  let t := parse_ip_with_ports ip_port in
  strip (ip t) = ip t /\
  (contains ":" ip_port = true -> contains ":" (ip t) = false) /\
  Forall (fun p => p <> EmptyString /\ strip p = p) (ports t).
Proof.
  unfold parse_ip_with_ports.
  destruct (contains ":" ip_port) eqn:Hc; simpl negb; cbv iota.
  2:{ simpl. split; [apply strip_idem|]. split; [discriminate | constructor]. }
  pose proof (split1_head_clean ":" ip_port) as Hh.
  destruct (split1_two ":" ip_port Hc) as (a & b & Hs & _). rewrite Hs in Hh |- *.
  simpl. split; [apply strip_idem|]. split.
  - intros _. rewrite contains_strip by reflexivity. exact Hh.
  - apply List.Forall_forall. intros p Hp.
    apply in_map_iff in Hp as (q & <- & Hq).
    rewrite <- list_elem_of_In in Hq. apply list_elem_of_filter in Hq as [Hq _].
    split; [|apply strip_idem].
    destruct (strip q); [discriminate Hq | discriminate].
Qed.

Lemma X5_witness :
  parse_ip_with_ports " 10.0.0.7 : 80, ,443 ,," = Target "10.0.0.7" ["80"; "443"] /\
  contains ":" (ip (parse_ip_with_ports " 10.0.0.7 : 80, ,443 ,,")) = false.
Proof.
  split; [reflexivity|].
  exact (proj1 (proj2 (X5_parse_ip_with_ports_tokens " 10.0.0.7 : 80, ,443 ,,")) eq_refl).
Defined.

End MoreExpansion.

(** ** More on the command builder *)

Section MoreBuilder.
Import PyStr IPProcessor.

Lemma contains_replace_gone c d s : c <> d -> contains c (replace c d s) = false.
Proof.
  intros Hne. induction s as [|x s IH]; simpl; [reflexivity|]. rewrite IH.
  destruct (Ascii.eqb_spec x c) as [->|Hx].
  - destruct (Ascii.eqb_spec d c); [congruence | reflexivity].
  - destruct (Ascii.eqb_spec x c); [congruence | reflexivity].
Qed.

Lemma contains_replace_absent c a d s :
  c <> d -> contains c s = false -> contains c (replace a d s) = false.
Proof.
  intros Hne. induction s as [|x s IH]; simpl; [reflexivity|].
  destruct (Ascii.eqb_spec x c) as [->|Hx]; [discriminate|]. intros H. rewrite (IH H).
  destruct (Ascii.eqb x a).
  - destruct (Ascii.eqb_spec d c); [congruence | reflexivity].
  - destruct (Ascii.eqb_spec x c); [congruence | reflexivity].
Qed.

Lemma uint_digits_only c d :
  isdigit c = false -> contains c (NilEmpty.string_of_uint d) = false.
Proof.
  intros Hc. induction d; cbn [NilEmpty.string_of_uint contains]; [reflexivity|..];
    rewrite IHd;
    match goal with
    | |- (if Ascii.eqb ?x c then _ else _) = _ =>
        destruct (Ascii.eqb_spec x c) as [<-|]; [discriminate Hc | reflexivity]
    end.
Qed.

(** [str(n)] is made of digits and a leading minus sign. *)
Lemma of_Z_digits_only c n :
  isdigit c = false -> c <> "-"%char -> contains c (of_Z n) = false.
Proof.
  intros Hc Hm. unfold of_Z, NilZero.string_of_int, NilZero.string_of_uint.
  assert (Hz : contains c "0" = false).
  { cbn [contains]. destruct (Ascii.eqb_spec "0" c) as [<-|]; [discriminate Hc | reflexivity]. }
  destruct (Z.to_int n) as [d|d]; cbn [contains].
  - destruct d; try exact Hz; apply uint_digits_only; exact Hc.
  - destruct (Ascii.eqb_spec "-" c); [congruence|].
    destruct d; try exact Hz; apply uint_digits_only; exact Hc.
Qed.

(** X7: the output basename never holds a dot or a colon, whatever the
    target address is: in an artifact name the only dot is the one of the
    extension the builder adds. *)
Theorem X7_basename_has_no_dot_or_colon presets dflt (w : world) (t : target)
    (o : options) :
  let basename := (Builder.build_nmap_command presets dflt w t o).2 in
  contains "." basename = false /\ contains ":" basename = false.
Proof.
  intros basename. subst basename. rewrite build_basename.
  rewrite !contains_app.
  rewrite (contains_replace_absent "." ":" "_") by
    (try discriminate; apply contains_replace_gone; discriminate).
  rewrite (contains_replace_gone ":" "_") by discriminate.
  rewrite !of_Z_digits_only by (reflexivity || discriminate).
  split; reflexivity.
Qed.

(** X6: a custom port list that is not empty wins over the ports of the
    target: the command line is the same whatever ports the target
    carries. *)
Theorem X6_custom_ports_override presets dflt (w : world) (o : options)
    (address custom : string) (ports1 ports2 : list string) :
  custom_ports o = Some custom -> custom <> EmptyString ->
  Builder.build_nmap_command presets dflt w (Target address ports1) o =
  Builder.build_nmap_command presets dflt w (Target address ports2) o.
Proof.
  intros Hc Hne. unfold Builder.build_nmap_command. rewrite Hc.
  destruct custom; [congruence | reflexivity].
Qed.

Lemma X6_witness :
  App.build_nmap_command Sample.good_world (Target "10.0.0.5" ["80"; "443"])
    (Options None false false false false false false false None (Some "1-1024")) =
  App.build_nmap_command Sample.good_world (Target "10.0.0.5" [])
    (Options None false false false false false false false None (Some "1-1024")).
Proof.
  apply (X6_custom_ports_override App.scan_presets None Sample.good_world _
           "10.0.0.5" "1-1024" ["80"; "443"] []); [reflexivity | discriminate].
Defined.

(** X8: the two copies of the builder (app.py and nmap_scanner.py) build
    the same command for every request that names a preset other than
    [udp]; they differ on [udp] and when no preset is named. *)
Theorem X8_builders_agree (w : world) (t : target) (o : options) (p : string) :
  preset o = Some p -> p <> "udp" ->
  App.build_nmap_command w t o = Scanner.build_nmap_command w t o.
Proof.
  intros Hp Hne. unfold App.build_nmap_command, Scanner.build_nmap_command,
    Builder.build_nmap_command. rewrite Hp.
  assert (Builder.lookup_preset p App.scan_presets =
          Builder.lookup_preset p Scanner.scan_presets) as ->; [|reflexivity].
  unfold App.scan_presets, Scanner.scan_presets. cbn [Builder.lookup_preset].
  repeat match goal with
         | |- context [String.eqb ?k p] =>
             destruct (String.eqb_spec k p); [try reflexivity; congruence|]
         end.
  reflexivity.
Qed.

Lemma X8_witness :
  App.build_nmap_command Sample.good_world Sample.T1 Sample.fast_T4 =
  Scanner.build_nmap_command Sample.good_world Sample.T1 Sample.fast_T4.
Proof.
  apply (X8_builders_agree Sample.good_world Sample.T1 Sample.fast_T4 "fast");
    [reflexivity | discriminate].
Defined.

(** Where they differ. *)
Lemma builders_differ :
  let none := Options None false false false false false false false None None in
  let udp := Options (Some "udp") false false false false false false false None None in
  (App.build_nmap_command Sample.good_world Sample.T1 none).1 <>
  (Scanner.build_nmap_command Sample.good_world Sample.T1 none).1 /\
  (App.build_nmap_command Sample.good_world Sample.T1 udp).1 <>
  (Scanner.build_nmap_command Sample.good_world Sample.T1 udp).1.
Proof. vm_compute. split; discriminate. Qed.

End MoreBuilder.

(** ** More on the result parsers *)

Section MoreParser.
Import ET.

(** The two port fields, for both parsers. *)
Lemma port_fields_reported root :
  (Dict.get "services" (AppParser.parse_nmap_xml (Ok root)) =
     Some (PyList (map (fun p => PyDict (AppParser.port_entry p)) (port_nodes root))) /\
   Dict.get "open_ports" (AppParser.parse_nmap_xml (Ok root)) =
     Some (PyInt (count_open (port_nodes root)))) /\
  forall result, ScannerParser.parse_root root = Ok result ->
    Dict.get "services" result =
      Some (PyList (map (fun p => PyDict (ScannerParser.port_entry p)) (port_nodes root))) /\
    Dict.get "open_ports" result = Some (PyInt (count_open (port_nodes root))).
Proof.
  unfold port_nodes, count_open. split.
  - unfold AppParser.parse_nmap_xml.
    destruct (find "host" root) as [host|]; [|split; reflexivity].
    rewrite !app_parse_runstats_frame by discriminate.
    rewrite app_services, app_open_ports.
    destruct (find "ports" host) as [ports|]; [|split; reflexivity].
    rewrite app_ports_loop. simpl fst. simpl snd.
    rewrite (filter_ext_bool _ port_is_open) by apply app_state_is_open.
    split; reflexivity.
  - intros result Hr. destruct (find "host" root) as [host|] eqn:Hh.
    + destruct (scanner_parse_root_host root host result Hh Hr) as (r1 & H1 & H2).
      rewrite !(scanner_parse_runstats_ok _ _ _ _ H2) by discriminate.
      rewrite !scanner_parse_extras_frame, !scanner_parse_os_frame by discriminate.
      destruct (scanner_parse_ports_ok _ _ _ H1) as [_ Hp].
      destruct (find "ports" host) as [ports|].
      * destruct Hp as [-> ->]. rewrite scanner_ports_loop. simpl fst. simpl snd.
        rewrite (filter_ext_bool _ port_is_open) by apply scanner_state_is_open.
        split; reflexivity.
      * subst r1.
        rewrite !scanner_parse_identity_frame, !scanner_parse_scaninfo_frame by discriminate.
        split; reflexivity.
    + unfold ScannerParser.parse_root in Hr. rewrite Hh in Hr. injection Hr as <-.
      rewrite !scanner_parse_scaninfo_frame by discriminate. split; reflexivity.
Qed.

Lemma count_open_bounds ports : 0 <= count_open ports <= Z.of_nat (length ports).
Proof.
  unfold count_open. split; [lia|]. apply inj_le, length_filter.
Qed.

(** X9: in every result parsed from a readable artifact the count of
    open ports lies between zero and the number of service entries. *)
Theorem X9_open_ports_within_services root :
  (exists services n,
     Dict.get "services" (AppParser.parse_nmap_xml (Ok root)) = Some (PyList services) /\
     Dict.get "open_ports" (AppParser.parse_nmap_xml (Ok root)) = Some (PyInt n) /\
     0 <= n <= Z.of_nat (length services)) /\
  forall result, ScannerParser.parse_root root = Ok result ->
    exists services n,
      Dict.get "services" result = Some (PyList services) /\
      Dict.get "open_ports" result = Some (PyInt n) /\
      0 <= n <= Z.of_nat (length services).
Proof.
  destruct (port_fields_reported root) as [[Hs Ho] Hr]. split.
  - eexists _, _. split; [exact Hs|]. split; [exact Ho|].
    rewrite length_map. apply count_open_bounds.
  - intros result H. destruct (Hr result H) as [Hs' Ho'].
    eexists _, _. split; [exact Hs'|]. split; [exact Ho'|].
    rewrite length_map. apply count_open_bounds.
Qed.

Lemma X9_witness :
  exists services n,
    Dict.get "services" (ScannerParser.parse_nmap_xml (Ok Sample.artifact_with_ports))
      = Some (PyList services) /\
    Dict.get "open_ports" (ScannerParser.parse_nmap_xml (Ok Sample.artifact_with_ports))
      = Some (PyInt n) /\
    0 <= n <= Z.of_nat (length services).
Proof.
  exact (proj2 (X9_open_ports_within_services Sample.artifact_with_ports) _ eq_refl).
Defined.

Lemma app_parse_host_frame host result k :
  k <> "host_status" -> k <> "hostnames" -> k <> "services" ->
  k <> "open_ports" -> k <> "os_info" ->
  Dict.get k (AppParser.parse_host host result) = Dict.get k result.
Proof.
  intros. unfold AppParser.parse_host.
  destruct (find "status" host); destruct (find "hostnames" host);
    destruct (find "ports" host); destruct (find "os" host) as [o|];
    try destruct (find "osmatch" o);
    rewrite ?get_set_ne by congruence; reflexivity.
Qed.

Lemma app_os_info host :
  Dict.get "os_info" (AppParser.parse_host host AppParser.initial_result) =
    Some (PyStr (first_os_name host)).
Proof.
  unfold AppParser.parse_host, first_os_name, find, get_d.
  destruct (head (findall "status" host)); destruct (head (findall "hostnames" host));
    destruct (head (findall "ports" host)); destruct (head (findall "os" host)) as [o|];
    try destruct (findall "osmatch" o); read_dict.
Qed.

Lemma scanner_os_info host result :
  Dict.get "os_info" (ScannerParser.parse_os host result) =
    match find "os" host with
    | Some os_elem =>
        match findall "osmatch" os_elem with
        | _ :: _ => Some (PyStr (first_os_name host))
        | [] => Dict.get "os_info" result
        end
    | None => Dict.get "os_info" result
    end.
Proof.
  unfold ScannerParser.parse_os, first_os_name, get_d.
  destruct (find "os" host) as [o|]; [|reflexivity].
  destruct (findall "osmatch" o) as [|m ?]; [|destruct (findall "osclass" m)];
    destruct (find "portused" o); read_dict.
Qed.

(** X10: the OS guess is the name of the first OS match of the host, and
    the empty string when the host has no OS block, no match, or a first
    match without a name; later matches are never looked at. *)
Theorem X10_os_info_first_match root host :
  find "host" root = Some host ->
  Dict.get "os_info" (AppParser.parse_nmap_xml (Ok root)) =
    Some (PyStr (first_os_name host)) /\
  forall result, ScannerParser.parse_root root = Ok result ->
    Dict.get "os_info" result = Some (PyStr (first_os_name host)).
Proof.
  intros Hh. split.
  - unfold AppParser.parse_nmap_xml. rewrite Hh.
    rewrite app_parse_runstats_frame by discriminate. apply app_os_info.
  - intros result Hr.
    destruct (scanner_parse_root_host root host result Hh Hr) as (r1 & H1 & H2).
    rewrite (scanner_parse_runstats_ok _ _ _ "os_info" H2) by discriminate.
    rewrite scanner_parse_extras_frame by discriminate. rewrite scanner_os_info.
    destruct (scanner_parse_ports_ok _ _ _ H1) as [Hf _].
    rewrite Hf by discriminate.
    rewrite scanner_parse_identity_frame, scanner_parse_scaninfo_frame by discriminate.
    unfold first_os_name.
    destruct (find "os" host) as [o|]; [|reflexivity].
    destruct (findall "osmatch" o); reflexivity.
Qed.

Lemma X10_witness :
  Dict.get "os_info" (AppParser.parse_nmap_xml (Ok Sample.artifact_with_ports))
    = Some (PyStr "").
Proof.
  exact (proj1 (X10_os_info_first_match Sample.artifact_with_ports _ eq_refl)).
Defined.

(** X12: in nmap_scanner.py an [extraports] count that [int] cannot read
    throws away the whole parse: the result is the parse error alone.  The
    parser of app.py does not read the count and reports no error. *)
Theorem X12_bad_count_discards_parse root host ports extraports e :
  find "host" root = Some host ->
  find "ports" host = Some ports ->
  find "extraports" ports = Some extraports ->
  ScannerParser.int_attr extraports "count" = Raise e ->
  ScannerParser.parse_nmap_xml (Ok root) = [("parse_error", PyStr e)] /\
  Dict.get "parse_error" (AppParser.parse_nmap_xml (Ok root)) = None.
Proof.
  intros Hh Hp Hx He. split.
  - unfold ScannerParser.parse_nmap_xml, ScannerParser.parse_root. simpl mbind.
    rewrite Hh. unfold ScannerParser.parse_ports. rewrite Hp, Hx, He. reflexivity.
  - unfold AppParser.parse_nmap_xml. rewrite Hh.
    rewrite app_parse_runstats_frame, app_parse_host_frame by discriminate.
    reflexivity.
Qed.

Lemma X12_witness :
  ScannerParser.parse_nmap_xml (Ok artifact_with_bad_count) =
    [("parse_error", PyStr "invalid literal for int() with base 10: 'many'")].
Proof.
  exact (proj1 (X12_bad_count_discards_parse artifact_with_bad_count _ _ _ _
                  eq_refl eq_refl eq_refl eq_refl)).
Defined.

(** A key that is in the dictionary stays in it when another is written. *)
Lemma mem_set k k' v (d : pydict) : Dict.mem k d = true -> Dict.mem k (Dict.set k' v d) = true.
Proof.
  unfold Dict.mem. rewrite get_set. destruct (String.eqb k' k); [reflexivity | auto].
Qed.

Ltac keep_key := repeat (apply mem_set); try assumption; try reflexivity.

Lemma app_parse_keeps_keys root k :
  Dict.mem k AppParser.initial_result = true ->
  Dict.mem k (AppParser.parse_nmap_xml (Ok root)) = true.
Proof.
  intros H. unfold AppParser.parse_nmap_xml.
  destruct (find "host" root) as [host|]; [|exact H].
  unfold AppParser.parse_runstats, AppParser.parse_host.
  destruct (find "runstats" root) as [rs|]; [destruct (find "finished" rs)|];
    destruct (find "status" host); destruct (find "hostnames" host);
    destruct (find "ports" host); destruct (find "os" host) as [o|];
    try destruct (find "osmatch" o); keep_key.
Qed.

Lemma scanner_mac_keeps addresses : forall result k,
  Dict.mem k result = true ->
  Dict.mem k
    (fold_left
       (fun result address =>
          match lookup_attr "addrtype" (attrib address) with
          | Some "mac" =>
              Dict.set "mac_vendor" (get_d address "vendor" "")
                (Dict.set "mac_address" (get address "addr") result)
          | _ => result
          end) addresses result) = true.
Proof.
  induction addresses as [|a addresses IH]; intros result k H; simpl; [exact H|].
  apply IH. destruct (lookup_attr "addrtype" (attrib a)) as [t|]; [|exact H].
  repeat (destruct t as [|[[] [] [] [] [] [] [] []] t]; try exact H).
  keep_key.
Qed.

Lemma scanner_parse_keeps_keys root result k :
  ScannerParser.parse_root root = Ok result ->
  Dict.mem k ScannerParser.initial_result = true ->
  Dict.mem k result = true.
Proof.
  intros Hr H.
  assert (H0 : Dict.mem k (ScannerParser.parse_scaninfo root ScannerParser.initial_result)
               = true).
  { unfold ScannerParser.parse_scaninfo. destruct (find "scaninfo" root); keep_key. }
  destruct (find "host" root) as [host|] eqn:Hh.
  2:{ unfold ScannerParser.parse_root in Hr. rewrite Hh in Hr. injection Hr as <-. exact H0. }
  destruct (scanner_parse_root_host root host result Hh Hr) as (r1 & H1 & H2).
  assert (Hi : Dict.mem k (ScannerParser.parse_identity host
                 (ScannerParser.parse_scaninfo root ScannerParser.initial_result)) = true).
  { unfold ScannerParser.parse_identity. apply scanner_mac_keeps.
    destruct (find "status" host); destruct (find "hostnames" host); keep_key. }
  assert (Hp : Dict.mem k r1 = true).
  { revert H1. unfold ScannerParser.parse_ports.
    destruct (find "ports" host) as [ports|]; [|intros [= <-]; exact Hi].
    destruct (find "extraports" ports) as [x|]; simpl.
    - destruct (ScannerParser.int_attr x "count"); simpl; [|discriminate].
      intros [= <-]. keep_key.
    - intros [= <-]. keep_key. }
  assert (He : Dict.mem k (ScannerParser.parse_extras host (ScannerParser.parse_os host r1))
               = true).
  { unfold ScannerParser.parse_extras, ScannerParser.parse_os.
    destruct (findall2 "hostscript" "script" host); destruct (find "trace" host);
      destruct (find "times" host); destruct (find "os" host) as [o|];
      try (destruct (findall "osmatch" o) as [|m ?]; [|destruct (findall "osclass" m)];
           destruct (find "portused" o)); keep_key. }
  revert H2. unfold ScannerParser.parse_runstats.
  destruct (find "runstats" root) as [rs|]; [|intros [= <-]; exact He].
  destruct (find "hosts" rs) as [h|].
  - destruct (ScannerParser.int_attr h "up"); simpl; [|discriminate].
    destruct (ScannerParser.int_attr h "down"); simpl; [|discriminate].
    destruct (ScannerParser.int_attr h "total"); simpl; [|discriminate].
    intros [= <-]. destruct (find "finished" rs); keep_key.
  - intros [= <-]. destruct (find "finished" rs); keep_key.
Qed.

Lemma scanner_no_parse_error root result :
  ScannerParser.parse_root root = Ok result -> Dict.get "parse_error" result = None.
Proof.
  intros Hr. destruct (find "host" root) as [host|] eqn:Hh.
  - destruct (scanner_parse_root_host root host result Hh Hr) as (r1 & H1 & H2).
    rewrite (scanner_parse_runstats_ok _ _ _ "parse_error" H2) by discriminate.
    rewrite scanner_parse_extras_frame, scanner_parse_os_frame by discriminate.
    destruct (scanner_parse_ports_ok _ _ _ H1) as [Hf _]. rewrite Hf by discriminate.
    rewrite scanner_parse_identity_frame, scanner_parse_scaninfo_frame by discriminate.
    reflexivity.
  - unfold ScannerParser.parse_root in Hr. rewrite Hh in Hr. injection Hr as <-.
    rewrite scanner_parse_scaninfo_frame by discriminate. reflexivity.
Qed.

(** X11: what a parser returns has one of two shapes, whatever the
    artifact: the parse error alone, or a result without parse error in
    which the five fields hostStatus, openPortCount, services, osGuess and
    hostnames are all present.  For app.py the first shape stands for a
    root-level failure only. *)
Theorem X11_result_shapes (xml : parsed) :
  let core := ["host_status"; "open_ports"; "services"; "os_info"; "hostnames"] in
  let full (r : pydict) :=
    Dict.get "parse_error" r = None /\ Forall (fun k => Dict.mem k r = true) core in
  ((exists e, xml = Raise e /\ AppParser.parse_nmap_xml xml = [("parse_error", PyStr e)]) \/
   ((exists root, xml = Ok root) /\ full (AppParser.parse_nmap_xml xml))) /\
  ((exists e, ScannerParser.parse_nmap_xml xml = [("parse_error", PyStr e)]) \/
   full (ScannerParser.parse_nmap_xml xml)).
Proof.
  intros core full. destruct xml as [root|e].
  - split.
    + right. split; [eauto|]. split.
      * unfold AppParser.parse_nmap_xml.
        destruct (find "host" root); [|reflexivity].
        rewrite app_parse_runstats_frame, app_parse_host_frame by discriminate.
        reflexivity.
      * repeat constructor; apply app_parse_keeps_keys; reflexivity.
    + unfold ScannerParser.parse_nmap_xml. simpl mbind.
      destruct (ScannerParser.parse_root root) as [result|e] eqn:Hr; [right | left; eauto].
      split; [exact (scanner_no_parse_error root result Hr)|].
      repeat constructor; apply (scanner_parse_keeps_keys root result _ Hr); reflexivity.
  - split; left; eauto.
Qed.

End MoreParser.

(** ** More on the single scan *)

Section MoreScan.
Import IPProcessor.

Lemma get_update_absent k u : forall d : pydict,
  Dict.get k u = None -> Dict.get k (Dict.update u d) = Dict.get k d.
Proof.
  unfold Dict.update. induction u as [|[k' v] u IH]; intros d; simpl; [reflexivity|].
  destruct (String.eqb k' k) eqn:E; [discriminate|]. intros H.
  rewrite IH by exact H. rewrite get_set, E. reflexivity.
Qed.

Ltac not_written H := repeat (apply List.Forall_cons_iff in H as [? H]).

Ltac absent_key :=
  cbv [AppParser.initial_result ScannerParser.initial_result]; cbn [Dict.get];
  repeat (rewrite (proj2 (String.eqb_neq _ _)) by congruence); reflexivity.

Lemma app_parser_writes xml k :
  List.Forall (fun k' => k <> k') app_parser_keys ->
  Dict.get k (AppParser.parse_nmap_xml xml) = None.
Proof.
  intros H. unfold app_parser_keys in H. not_written H.
  destruct xml as [root|e]; cbn [AppParser.parse_nmap_xml].
  - destruct (ET.find "host" root); [|absent_key].
    rewrite app_parse_runstats_frame, app_parse_host_frame by congruence.
    absent_key.
  - absent_key.
Qed.

Lemma scanner_parser_writes xml k :
  List.Forall (fun k' => k <> k') scanner_parser_keys ->
  Dict.get k (ScannerParser.parse_nmap_xml xml) = None.
Proof.
  intros H. unfold scanner_parser_keys in H. not_written H.
  assert (Hi : Dict.get k ScannerParser.initial_result = None) by absent_key.
  unfold ScannerParser.parse_nmap_xml. destruct xml as [root|e]; simpl mbind.
  2:{ absent_key. }
  destruct (ScannerParser.parse_root root) as [result|e] eqn:Hr.
  2:{ absent_key. }
  destruct (ET.find "host" root) as [host|] eqn:Hh.
  - destruct (scanner_parse_root_host root host result Hh Hr) as (r1 & Hp1 & Hp2).
    rewrite (scanner_parse_runstats_ok _ _ _ k Hp2) by congruence.
    rewrite scanner_parse_extras_frame, scanner_parse_os_frame by congruence.
    destruct (scanner_parse_ports_ok _ _ _ Hp1) as [Hf _]. rewrite Hf by congruence.
    rewrite scanner_parse_identity_frame, scanner_parse_scaninfo_frame by congruence.
    exact Hi.
  - unfold ScannerParser.parse_root in Hr. rewrite Hh in Hr. injection Hr as <-.
    rewrite scanner_parse_scaninfo_frame by congruence. exact Hi.
Qed.

Lemma scan_single_ip_frame (w : world) (reg : gmap string scan_info)
    (t : target) (o : options) (sid other : string) :
  other <> sid ->
  (App.scan_single_ip w reg t o sid).1 !! other = reg !! other /\
  (Scanner.scan_single_ip w reg t o sid).1 !! other = reg !! other.
Proof.
  intros Hne. unfold App.scan_single_ip, Scanner.scan_single_ip, App.submit, Scanner.submit.
  destruct (App.build_nmap_command w t o) as [c1 o1].
  destruct (Scanner.build_nmap_command w t o) as [c2 o2].
  destruct (popen w) as [p|e]; simpl; [|split; reflexivity].
  split.
  - destruct (cancelled w); destruct (communicate_raises w); destruct (save_metadata w);
      simpl; rewrite ?lookup_delete_ne, ?lookup_insert_ne by congruence; reflexivity.
  - destruct (cancelled w); destruct (communicate_raises w);
      rewrite ?lookup_delete_eq, ?lookup_insert_eq; simpl;
      rewrite ?lookup_delete_ne, ?lookup_insert_ne by congruence; reflexivity.
Qed.

(** X13: a scan touches no registry entry but the one of its own session
    id, on every path, in both copies of the scanner. *)
Theorem X13_scan_keeps_other_jobs (w : world) (reg : gmap string scan_info)
    (t : target) (o : options) (sid other : string) :
  other <> sid ->
  (App.scan_single_ip w reg t o sid).1 !! other = reg !! other /\
  (Scanner.scan_single_ip w reg t o sid).1 !! other = reg !! other.
Proof. apply scan_single_ip_frame. Qed.

Lemma X13_witness :
  (App.scan_single_ip Sample.good_world Sample.full_registry Sample.T1 Sample.fast_T4 "s2").1
    !! "s3" = Some (Sample.job 3).
Proof.
  exact (proj1 (X13_scan_keeps_other_jobs Sample.good_world Sample.full_registry
                  Sample.T1 Sample.fast_T4 "s2" "s3" ltac:(discriminate))).
Defined.



(** X15: in app.py, when writing the metadata file raises (the scan
    itself having run to its end), the scan is
    reported as an error (the parsed data is dropped) and, unless a cancel
    request removed it, the job stays in the registry: nothing cleans it
    up. *)
Theorem X15_metadata_failure_leaves_job (w : world) (reg : gmap string scan_info)
    (t : target) (o : options) (sid e : string) (p : nat) :
  popen w = Ok p -> communicate_raises w = None ->
  save_metadata w = Raise e -> cancelled w = false ->
  (App.scan_single_ip w reg t o sid).2 = App.error_result w (ip t) e /\
  exists output_file,
    (App.scan_single_ip w reg t o sid).1 !! sid =
      Some (ScanInfo p (ip t) (start_iso w) output_file).
Proof.
  intros Hp Hr Hs Hc. unfold App.scan_single_ip, App.submit.
  destruct (App.build_nmap_command w t o) as [c1 o1].
  rewrite Hp. simpl. rewrite Hr, Hs, Hc. simpl. split; [reflexivity|].
  exists o1. apply lookup_insert_eq.
Qed.

Lemma X15_witness :
  Dict.get "status"
    (App.scan_single_ip unwritable_world ∅ Sample.T1 Sample.fast_T4 "s1").2
    = Some (PyStr "error") /\
  is_Some ((App.scan_single_ip unwritable_world ∅ Sample.T1 Sample.fast_T4 "s1").1 !! "s1").
Proof.
  destruct (X15_metadata_failure_leaves_job unwritable_world ∅ Sample.T1 Sample.fast_T4
              "s1" "Permission denied" 4242%nat eq_refl eq_refl eq_refl eq_refl)
    as [H1 [f H2]].
  split; [rewrite H1; reflexivity | rewrite H2; eauto].
Defined.

(** X16: what the parser reads from the artifact never overwrites the
    fields the job sets itself: whatever the artifact holds, a scan that
    ran to its end reports its own target, the exit code, the captured
    output, and the status [completed] exactly when the exit code is
    zero, [failed] otherwise. *)
Theorem X16_job_fields_survive_parse (w : world) (reg : gmap string scan_info)
    (t : target) (o : options) (sid : string) (p : nat) :
  popen w = Ok p -> communicate_raises w = None ->
  save_metadata w = Ok tt -> cancelled w = false ->
  let expected :=
    [("target_ip", PyStr (ip t));
     ("status", PyStr (if returncode w =? 0 then "completed" else "failed"));
     ("return_code", PyInt (returncode w));
     ("stdout", PyStr (stdout w));
     ("stderr", PyStr (stderr w));
     ("start_time", PyStr (start_iso w));
     ("end_time", PyStr (end_iso w))] in
  Forall (fun kv => Dict.get kv.1 (App.scan_single_ip w reg t o sid).2 = Some kv.2)
         expected /\
  Forall (fun kv => Dict.get kv.1 (Scanner.scan_single_ip w reg t o sid).2 = Some kv.2)
         expected.
Proof.
  intros Hp Hr Hs Hc expected. subst expected.
  unfold App.scan_single_ip, Scanner.scan_single_ip, App.submit, Scanner.submit.
  destruct (App.build_nmap_command w t o) as [c1 o1].
  destruct (Scanner.build_nmap_command w t o) as [c2 o2].
  rewrite Hp. simpl mbind. cbv iota beta. rewrite Hr, Hs, Hc, lookup_insert_eq. simpl snd.
  split.
  - destruct (xml_exists w); repeat constructor; simpl fst; simpl snd;
      rewrite ?get_update_absent
        by (apply app_parser_writes; repeat constructor; discriminate);
      reflexivity.
  - destruct (xml_exists w); repeat constructor; simpl fst; simpl snd;
      rewrite ?get_update_absent
        by (apply scanner_parser_writes; repeat constructor; discriminate);
      reflexivity.
Qed.

Lemma X16_witness :
  Dict.get "status"
    (Scanner.scan_single_ip Sample.failing_world ∅ Sample.T2 Sample.fast_T4 "s1").2
    = Some (PyStr "failed").
Proof.
  destruct (X16_job_fields_survive_parse Sample.failing_world ∅ Sample.T2 Sample.fast_T4
              "s1" 4243%nat eq_refl eq_refl eq_refl eq_refl) as [_ H].
  apply List.Forall_cons_iff in H as [_ H]. apply List.Forall_cons_iff in H as [H _].
  exact H.
Defined.

(** X17: when a cancel request removes the job while the scanner waits
    for the process, and the wait then returns, the scanner of nmap_scanner.py reports the status
    [cancelled], with the two times and nothing else, and parses no
    artifact; the scanner of app.py does not notice and reports the scan
    by its exit code. *)
Theorem X17_cancelled_scan (w : world) (reg : gmap string scan_info)
    (t : target) (o : options) (sid : string) (p : nat) :
  popen w = Ok p -> communicate_raises w = None -> cancelled w = true ->
  Scanner.scan_single_ip w reg t o sid =
    (delete sid reg,
     [("target_ip", PyStr (ip t)); ("status", PyStr "cancelled");
      ("start_time", PyStr (start_iso w)); ("end_time", PyStr (end_iso w))]) /\
  (save_metadata w = Ok tt ->
   Dict.get "status" (App.scan_single_ip w reg t o sid).2 =
     Some (PyStr (if returncode w =? 0 then "completed" else "failed"))).
Proof.
  intros Hp Hr Hc.
  unfold App.scan_single_ip, Scanner.scan_single_ip, App.submit, Scanner.submit.
  destruct (App.build_nmap_command w t o) as [c1 o1].
  destruct (Scanner.build_nmap_command w t o) as [c2 o2].
  rewrite Hp. simpl mbind. cbv iota beta. rewrite Hr, Hc. split.
  - rewrite lookup_delete_eq. rewrite delete_insert_eq. reflexivity.
  - intros ->. simpl snd.
    destruct (xml_exists w);
      rewrite ?get_update_absent
        by (apply app_parser_writes; repeat constructor; discriminate);
      reflexivity.
Qed.

Lemma X17_witness :
  Dict.get "status"
    (Scanner.scan_single_ip cancelled_world Sample.full_registry Sample.T1
       Sample.fast_T4 "s2").2 = Some (PyStr "cancelled") /\
  Dict.get "status"
    (App.scan_single_ip cancelled_world Sample.full_registry Sample.T1
       Sample.fast_T4 "s2").2 = Some (PyStr "failed").
Proof.
  destruct (X17_cancelled_scan cancelled_world Sample.full_registry Sample.T1
              Sample.fast_T4 "s2" 4242%nat eq_refl eq_refl eq_refl) as [H1 H2].
  split; [rewrite H1; reflexivity | exact (H2 eq_refl)].
Defined.

End MoreScan.

(** ** More on the session loop *)

Section MoreSession.
Import IPProcessor.

Lemma progress_counts_app a b :
  progress_counts (a ++ b) = progress_counts a ++ progress_counts b.
Proof.
  induction a as [|e a IH]; [reflexivity|].
  destruct e; simpl; rewrite IH; reflexivity.
Qed.

Lemma outcome_is_no_progress ev t :
  outcome_targets [ev] = [t] -> progress_counts [ev] = [].
Proof. destruct ev; simpl; (discriminate || reflexivity). Qed.

Section AnyScanner.

Variable scanner_scan_single_ip :
  world -> gmap string scan_info -> target -> options -> string ->
  gmap string scan_info * res pydict.
Variable env : nat -> world.
Variables (o : options) (project_id sid : string) (total : nat).

Lemma scan_loop_progress targets : forall s completed,
  progress_counts
    (App.emitted
       (fold_left (App.scan_target scanner_scan_single_ip env o sid total)
          targets (s, completed)).1) =
  progress_counts (App.emitted s) ++
  map (fun i => (i, total, Nat.eqb i 0)) (seq completed (length targets)).
Proof.
  induction targets as [|t targets IH]; intros s completed; cbn [fold_left].
  - simpl. rewrite app_nil_r. reflexivity.
  - destruct (scan_target_turn scanner_scan_single_ip env o sid total s completed t)
      as (reg1 & ev & Hev & ->).
    rewrite IH. cbn [App.emitted length seq map].
    rewrite progress_counts_app.
    change (progress_counts
              [scan_progress sid (ip t) completed total (Nat.eqb completed 0); ev])
      with ((completed, total, Nat.eqb completed 0) :: progress_counts [ev]).
    rewrite (outcome_is_no_progress ev (ip t) Hev), <- app_assoc. reflexivity.
Qed.

(** The scanner the loop calls leaves the other jobs alone. *)
Hypothesis scanner_frame : forall w reg t o sid other,
  other <> sid -> (scanner_scan_single_ip w reg t o sid).1 !! other = reg !! other.

Lemma scan_loop_frame targets other : other <> sid -> forall s completed,
  App.active_scans
    (fold_left (App.scan_target scanner_scan_single_ip env o sid total)
       targets (s, completed)).1 !! other = App.active_scans s !! other.
Proof.
  intros Hne. induction targets as [|t targets IH]; intros s completed; cbn [fold_left].
  - reflexivity.
  - assert (Hs : App.active_scans
                   (App.scan_target scanner_scan_single_ip env o sid total (s, completed) t).1
                 !! other = App.active_scans s !! other).
    { unfold App.scan_target, App.emit. cbn [App.active_scans App.emitted
        App.session_file].
      pose proof (scanner_frame (env completed) (App.active_scans s) t o sid other Hne)
        as Hf.
      destruct (scanner_scan_single_ip (env completed) (App.active_scans s) t o sid)
        as [reg r]. simpl in Hf.
      destruct r; destruct (App.session_file s); exact Hf. }
    destruct (App.scan_target scanner_scan_single_ip env o sid total (s, completed) t)
      as [s1 c1]. rewrite IH. exact Hs.
Qed.

End AnyScanner.

(** X18: the progress events of a session come one per target, in order;
    the k-th (from zero) says that k targets are completed out of the
    number of targets, and only the first carries the text
    "Calculating..." for the ETA. *)
Theorem X18_progress_counts (env : nat -> world) (targets : list target)
    (o : options) (project_id sid finish_iso : string) (s : App.session) :
  progress_counts
    (App.emitted (App.scan_ip_list env targets o project_id sid finish_iso s)) =
  progress_counts (App.emitted s) ++
  map (fun i => (i, length targets, Nat.eqb i 0)) (seq 0 (length targets)).
Proof.
  unfold App.scan_ip_list, App.scan_ip_list_with.
  match goal with
  | |- context [fold_left (App.scan_target ?f _ _ _ _) _ ?s0] =>
      pose proof (scan_loop_progress f env o sid (length targets) targets
                    (App.emit (scan_started sid (length targets) project_id) s) O) as H;
      destruct (fold_left (App.scan_target f env o sid (length targets)) targets s0)
        as [s1 c] eqn:E
  end.
  simpl in H. unfold App.emit in *. cbn [App.emitted] in *.
  rewrite progress_counts_app in H. cbn [progress_counts] in H. rewrite app_nil_r in H.
  destruct (App.session_file s1); cbn [App.emitted];
    rewrite progress_counts_app, H; cbn [progress_counts]; rewrite app_nil_r; reflexivity.
Qed.

(** X19: a whole session leaves the registry entries of the other
    sessions as they were. *)
Theorem X19_session_keeps_other_jobs (env : nat -> world) (targets : list target)
    (o : options) (project_id sid finish_iso other : string) (s : App.session) :
  other <> sid ->
  App.active_scans (App.scan_ip_list env targets o project_id sid finish_iso s) !! other
    = App.active_scans s !! other.
Proof.
  intros Hne. unfold App.scan_ip_list, App.scan_ip_list_with.
  match goal with
  | |- context [fold_left (App.scan_target ?f _ _ _ _) _ ?s0] =>
      assert (Hf : forall w reg t o sid other, other <> sid ->
                     (f w reg t o sid).1 !! other = reg !! other);
      [ intros w reg t o' sid' other' Hne';
        pose proof (proj1 (scan_single_ip_frame w reg t o' sid' other' Hne')) as Hx;
        cbv beta; destruct (App.scan_single_ip w reg t o' sid'); exact Hx
      | pose proof (scan_loop_frame f env o sid (length targets) Hf targets other Hne
                      (App.emit (scan_started sid (length targets) project_id) s) O) as H;
        destruct (fold_left (App.scan_target f env o sid (length targets)) targets s0)
          as [s1 c] eqn:E ]
  end.
  simpl in H. destruct (App.session_file s1); exact H.
Qed.

Lemma X19_witness :
  App.active_scans
    (App.scan_ip_list Sample.second_fails [Sample.T1; Sample.T2; Sample.T3]
       Sample.fast_T4 "p1" "s9" "2024-01-01T00:02:00"
       (App.Session Sample.full_registry None [])) !! "s3" = Some (Sample.job 3).
Proof.
  exact (X19_session_keeps_other_jobs Sample.second_fails [Sample.T1; Sample.T2; Sample.T3]
           Sample.fast_T4 "p1" "s9" "2024-01-01T00:02:00" "s3"
           (App.Session Sample.full_registry None []) ltac:(discriminate)).
Defined.

(** X20: when the session file is not there the loop does not create
    it; every target is still scanned and reported, and the completion
    event still carries the number of targets. *)
Theorem X20_session_without_file (env : nat -> world) (targets : list target)
    (o : options) (project_id sid finish_iso : string)
    (reg : gmap string scan_info) (earlier : list event) :
  let s := App.scan_ip_list env targets o project_id sid finish_iso
             (App.Session reg None earlier) in
  App.session_file s = None /\
  outcome_targets (App.emitted s) = outcome_targets earlier ++ map ip targets /\
  last (App.emitted s) = Some (scan_completed sid (length targets) (length targets)).
Proof.
  intros s. subst s. unfold App.scan_ip_list.
  match goal with
  | |- context [App.scan_ip_list_with ?f _ _ _ _ _ _ _ ?s0] =>
      destruct (scan_ip_list_with_spec f env o project_id sid (length targets)
                  targets finish_iso s0) as (reg' & new & Hnew & ->)
  end.
  cbn [App.session_file App.emitted]. split; [reflexivity|]. split.
  - rewrite !outcome_targets_app. cbn [outcome_targets].
    rewrite Hnew, app_nil_r. reflexivity.
  - rewrite !app_assoc. apply last_snoc.
Qed.

End MoreSession.

(** ** More on cancelling *)

Section MoreCancel.

(** X21: cancelling twice is harmless.  After a cancel of a registered
    job whose process calls did not raise, the job is out of the registry,
    whether the call returned [True] or, the scan thread having removed
    the job during the wait, [False]; a second cancel of the same id
    returns [False], makes no process call and leaves the registry as the
    first one left it. *)
Theorem X21_cancel_twice (w w' : cancel_world) (sid : string)
    (reg : gmap string scan_info) (info : scan_info) :
  reg !! sid = Some info ->
  terminate_raises w = None ->
  (still_running w = true -> kill_raises w = None) ->
  let first := Scanner.cancel_scan w sid reg in
  first.1.1 = delete sid reg /\
  first.2 = negb (entry_removed w) /\
  Scanner.cancel_scan w' sid first.1.1 = (first.1.1, [], false).
Proof.
  intros Hi Ht Hk first. subst first.
  rewrite (cancel_scan_runs w sid reg info Hi Ht Hk). simpl.
  split; [reflexivity|]. split; [reflexivity|].
  unfold Scanner.cancel_scan. rewrite lookup_delete_eq. reflexivity.
Qed.

Lemma X21_witness :
  Scanner.cancel_scan Sample.obedient "s2"
    (Scanner.cancel_scan Sample.stubborn "s2" Sample.full_registry).1.1
  = ((Scanner.cancel_scan Sample.stubborn "s2" Sample.full_registry).1.1, [], false) /\
  (Scanner.cancel_scan Sample.overtaken "s2" Sample.full_registry).2 = false.
Proof.
  destruct (X21_cancel_twice Sample.stubborn Sample.obedient "s2" Sample.full_registry
              (Sample.job 2) eq_refl eq_refl (fun _ => eq_refl)) as (_ & _ & H).
  destruct (X21_cancel_twice Sample.overtaken Sample.obedient "s2" Sample.full_registry
              (Sample.job 2) eq_refl eq_refl (fun _ => eq_refl)) as (_ & H' & _).
  split; [exact H | exact H'].
Defined.

(** X22: the cancel route of app.py asks the process to terminate and
    does nothing more to it (no wait, no kill); after a cancel that was
    answered with success the job is gone, one [scan_cancelled] event has
    been emitted, and a second cancel of the same id is answered 404, makes
    no process call and changes nothing. *)
Theorem X22_cancel_route_twice (w w' : cancel_world) (sid : string) (s : App.session)
    (info : scan_info) :
  App.active_scans s !! sid = Some info ->
  terminate_raises w = None ->
  let '(s1, calls, answer) := App.cancel_scan w sid s in
  calls = [Terminate (process info)] /\
  App.http_status answer = 200 /\
  App.active_scans s1 !! sid = None /\
  App.emitted s1 = App.emitted s ++ [scan_cancelled sid] /\
  App.cancel_scan w' sid s1 = (s1, [], App.Response false "Scan not found" 404).
Proof.
  intros Hi Ht. unfold App.cancel_scan at 1. rewrite Hi, Ht.
  repeat split.
  - apply lookup_delete_eq.
  - unfold App.cancel_scan, App.emit. cbn [App.active_scans].
    rewrite lookup_delete_eq. reflexivity.
Qed.

Lemma X22_witness :
  let '(s1, calls, answer) :=
    App.cancel_scan Sample.stubborn "s2" (App.Session Sample.full_registry None []) in
  calls = [Terminate 2] /\ App.http_status answer = 200 /\
  App.active_scans s1 !! "s2" = None.
Proof.
  pose proof (X22_cancel_route_twice Sample.stubborn Sample.obedient "s2"
                (App.Session Sample.full_registry None []) (Sample.job 2)
                eq_refl eq_refl) as H.
  destruct (App.cancel_scan Sample.stubborn "s2"
              (App.Session Sample.full_registry None [])) as [[s1 calls] answer].
  destruct H as (H1 & H2 & H3 & _). auto.
Defined.

End MoreCancel.

(** ** The configuration tree *)

Section ConfigFacts.
Import Config.

Lemma dget_dset k k' v (d : jdict) :
  dget k (dset k' v d) = if String.eqb k' k then Some v else dget k d.
Proof.
  induction d as [|[k0 v0] d IH]; simpl.
  - reflexivity.
  - destruct (String.eqb_spec k0 k') as [->|Hne]; simpl.
    + destruct (String.eqb k' k); reflexivity.
    + rewrite IH. destruct (String.eqb_spec k0 k) as [->|_]; [|reflexivity].
      destruct (String.eqb_spec k' k) as [->|_]; [congruence | reflexivity].
Qed.

(** Merging two dictionaries as values is [_merge_configs]. *)
Lemma merge_value_dicts loaded : forall default,
  merge_value (JDict loaded) (Some (JDict default)) = JDict (_merge_configs default loaded).
Proof.
  induction loaded as [|[key value] rest IH]; intros default; [reflexivity|].
  specialize (IH (dset key (merge_value value (dget key default)) default)).
  simpl in IH |- *. exact IH.
Qed.

Lemma merge_absent k loaded : forall default,
  dget k loaded = None -> dget k (_merge_configs default loaded) = dget k default.
Proof.
  induction loaded as [|[key value] rest IH]; intros default; simpl; [reflexivity|].
  destruct (String.eqb key k) eqn:E; [discriminate|]. intros H.
  rewrite IH by exact H. rewrite dget_dset, E. reflexivity.
Qed.

Lemma dget_not_listed k (d : jdict) :
  existsb (fun kv => String.eqb kv.1 k) d = false -> dget k d = None.
Proof.
  induction d as [|[k0 v0] d IH]; simpl; [reflexivity|].
  destruct (String.eqb k0 k); [discriminate | exact IH].
Qed.

Lemma unique_keys_cons k v d :
  unique_keys (JDict ((k, v) :: d)) = true ->
  existsb (fun kv => String.eqb kv.1 k) d = false /\
  unique_keys v = true /\ unique_keys (JDict d) = true.
Proof.
  simpl. intros H. apply andb_prop in H as [H H3]. apply andb_prop in H as [H1 H2].
  apply negb_true_iff in H1. auto.
Qed.

Lemma unique_keys_below k d v :
  unique_keys (JDict d) = true -> dget k d = Some v -> unique_keys v = true.
Proof.
  induction d as [|[k0 v0] d IH]; [discriminate|]. intros Hu.
  apply unique_keys_cons in Hu as (_ & Hv & Hd). simpl.
  destruct (String.eqb k0 k); [intros [= <-]; exact Hv | apply IH; exact Hd].
Qed.

Lemma merge_present k v loaded : forall default,
  unique_keys (JDict loaded) = true ->
  dget k loaded = Some v ->
  dget k (_merge_configs default loaded) = Some (merge_value v (dget k default)).
Proof.
  induction loaded as [|[key value] rest IH]; intros default Hu; [discriminate|].
  apply unique_keys_cons in Hu as (Hn & _ & Hr). simpl.
  destruct (String.eqb_spec key k) as [->|Hne].
  - intros [= ->]. rewrite merge_absent by (apply dget_not_listed; exact Hn).
    rewrite dget_dset, String.eqb_refl. reflexivity.
  - intros H. rewrite (IH _ Hr H), dget_dset.
    destruct (String.eqb_spec key k); [congruence | reflexivity].
Qed.

(** X23: what [_merge_configs] leaves under a key.  A key the loaded
    file does not have keeps the default; where both sides hold a
    dictionary the two are merged in the same way; in every other case the
    loaded value replaces the default. *)
Theorem X23_merge_configs_lookup (default loaded : jdict) (k : string) :
  unique_keys (JDict loaded) = true ->
  dget k (_merge_configs default loaded) =
    match dget k loaded, dget k default with
    | None, old => old
    | Some (JDict l), Some (JDict d) => Some (JDict (_merge_configs d l))
    | Some v, _ => Some v
    end.
Proof.
  intros Hu. destruct (dget k loaded) as [v|] eqn:Hl.
  - rewrite (merge_present k v loaded default Hu Hl).
    destruct v; try reflexivity.
    destruct (dget k default) as [[]|]; try reflexivity.
    rewrite merge_value_dicts. reflexivity.
  - apply merge_absent. exact Hl.
Qed.

Lemma X23_witness :
  dget "scanning"
    (_merge_configs default_sections
       [("scanning", JDict [("max_concurrent_scans", JInt 2)]); ("security", JBool false)])
  = Some (JDict (_merge_configs default_scanning [("max_concurrent_scans", JInt 2)])) /\
  dget "security"
    (_merge_configs default_sections
       [("scanning", JDict [("max_concurrent_scans", JInt 2)]); ("security", JBool false)])
  = Some (JBool false).
Proof.
  split.
  - exact (X23_merge_configs_lookup default_sections
             [("scanning", JDict [("max_concurrent_scans", JInt 2)]);
              ("security", JBool false)] "scanning" eq_refl).
  - exact (X23_merge_configs_lookup default_sections
             [("scanning", JDict [("max_concurrent_scans", JInt 2)]);
              ("security", JBool false)] "security" eq_refl).
Defined.

Lemma merge_keeps_path keys : forall default loaded v dflt,
  unique_keys (JDict loaded) = true ->
  lookup_keys keys (JDict default) = Some v ->
  untouched keys (JDict loaded) = true ->
  get_keys keys (JDict (_merge_configs default loaded)) dflt = v.
Proof.
  induction keys as [|key keys IH]; intros default loaded v dflt Hu Hd Ht; [discriminate|].
  cbn [lookup_keys untouched get_keys] in *.
  destruct (dget key default) as [dv|] eqn:Hdv; [|discriminate].
  destruct (dget key loaded) as [lv|] eqn:Hlv.
  - rewrite (merge_present key lv loaded default Hu Hlv), Hdv.
    destruct keys as [|k2 keys']; [discriminate Ht|].
    destruct lv as [| | | | |l]; try discriminate Ht.
    destruct dv as [| | | | |d]; try discriminate Hd.
    rewrite merge_value_dicts.
    apply IH; [exact (unique_keys_below key loaded _ Hu Hlv) | exact Hd | exact Ht].
  - rewrite merge_absent, Hdv by exact Hlv.
    clear -Hd. revert dv Hd. induction keys as [|k2 keys IH]; intros dv Hd; simpl in *.
    + congruence.
    + destruct dv; try discriminate. destruct (dget k2 d); [auto | discriminate].
Qed.

(** X24: a setting of the default configuration that the loaded file
    says nothing about survives the merge: [Config.get] on the merged
    configuration returns the default's value, whatever else the file
    sets. *)
Theorem X24_defaults_survive_merge (default loaded : jdict) (key_path : string)
    (v dflt : jval) :
  unique_keys (JDict loaded) = true ->
  lookup_keys (PyStr.split "." key_path) (JDict default) = Some v ->
  untouched (PyStr.split "." key_path) (JDict loaded) = true ->
  get (_merge_configs default loaded) key_path dflt = v.
Proof. intros. unfold get. apply merge_keeps_path; assumption. Qed.

Lemma X24_witness :
  get (_merge_configs default_sections
         [("scanning", JDict [("default_timeout", JInt 60)]); ("ui", JDict [])])
      "scanning.max_concurrent_scans" JNull = JInt 5.
Proof.
  apply (X24_defaults_survive_merge default_sections
           [("scanning", JDict [("default_timeout", JInt 60)]); ("ui", JDict [])]
           "scanning.max_concurrent_scans" (JInt 5) JNull); reflexivity.
Defined.

Lemma set_keys_step key k2 keys value config :
  set_keys (key :: k2 :: keys) value config =
    match dget key config with
    | None => sub ← set_keys (k2 :: keys) value []; Ok (dset key (JDict sub) config)
    | Some (JDict sub) =>
        sub ← set_keys (k2 :: keys) value sub; Ok (dset key (JDict sub) config)
    | Some _ => Raise "TypeError"
    end.
Proof. reflexivity. Qed.

Lemma set_keys_get keys : forall value config config' dflt,
  keys <> [] ->
  set_keys keys value config = Ok config' ->
  get_keys keys (JDict config') dflt = value.
Proof.
  induction keys as [|key keys IH]; intros value config config' dflt Hne; [congruence|].
  destruct keys as [|k2 keys'].
  - simpl. intros [= <-]. rewrite dget_dset, String.eqb_refl. reflexivity.
  - rewrite set_keys_step.
    assert (Hks : k2 :: keys' <> []) by discriminate.
    destruct (dget key config) as [[| | | | |sub]|]; try discriminate.
    + destruct (set_keys (k2 :: keys') value sub) as [sub'|] eqn:E; [|discriminate].
      intros [= <-]. cbn [get_keys]. rewrite dget_dset, String.eqb_refl.
      exact (IH value sub sub' dflt Hks E).
    + destruct (set_keys (k2 :: keys') value []) as [sub'|] eqn:E; [|discriminate].
      intros [= <-]. cbn [get_keys]. rewrite dget_dset, String.eqb_refl.
      exact (IH value [] sub' dflt Hks E).
Qed.

Lemma set_keys_frame keys : forall value config config' key k,
  set_keys (key :: keys) value config = Ok config' ->
  k <> key -> dget k config' = dget k config.
Proof.
  intros value config config' key k. destruct keys as [|k2 keys'].
  - simpl. intros [= <-] Hne. rewrite dget_dset.
    destruct (String.eqb_spec key k); [congruence | reflexivity].
  - rewrite set_keys_step.
    destruct (dget key config) as [[| | | | |sub]|]; try discriminate.
    + destruct (set_keys (k2 :: keys') value sub); [|discriminate].
      intros [= <-] Hne. rewrite dget_dset.
      destruct (String.eqb_spec key k); [congruence | reflexivity].
    + destruct (set_keys (k2 :: keys') value []); [|discriminate].
      intros [= <-] Hne. rewrite dget_dset.
      destruct (String.eqb_spec key k); [congruence | reflexivity].
Qed.

(** X25: what [Config.set] stores, [Config.get] reads back: after a
    [set] that did not raise, [get] of the same path returns the value
    set, whatever default [get] is given; and every top-level key other
    than the first key of the path is left as it was. *)
Theorem X25_set_then_get (config config' : jdict) (key_path : string)
    (value dflt : jval) :
  set config key_path value = Ok config' ->
  get config' key_path dflt = value /\
  forall k, Some k <> head (PyStr.split "." key_path) -> dget k config' = dget k config.
Proof.
  unfold set, get. intros H. split.
  - apply (set_keys_get _ value config config' dflt); [apply split_not_nil | exact H].
  - intros k Hk. destruct (PyStr.split "." key_path) as [|key keys] eqn:E.
    + exfalso. exact (split_not_nil _ _ E).
    + apply (set_keys_frame keys value config config' key k H). simpl in Hk. congruence.
Qed.

Lemma X25_witness :
  exists config',
    set default_sections "ui.panel_sizes.left_panel_width" (JInt 450) = Ok config' /\
    get config' "ui.panel_sizes.left_panel_width" JNull = JInt 450 /\
    dget "scanning" config' = Some (JDict default_scanning).
Proof.
  eexists. split; [reflexivity|].
  destruct (X25_set_then_get default_sections _ "ui.panel_sizes.left_panel_width"
              (JInt 450) JNull eq_refl) as [H1 H2].
  split; [exact H1 | exact (H2 "scanning" ltac:(discriminate))].
Defined.

End ConfigFacts.

(** ** Aggregation *)

Section AggregateFacts.
Import Aggregate.

(** The statements after the host count leave the three host counters
    alone. *)
Lemma process_result_counters scan_data result s detailed :
  total_hosts_scanned (process_result scan_data result (s, detailed)).1
    = total_hosts_scanned s /\
  hosts_up (process_result scan_data result (s, detailed)).1 = hosts_up s /\
  hosts_down (process_result scan_data result (s, detailed)).1 = hosts_down s.
Proof.
  unfold process_result.
  destruct (default (PyInt 0) (Dict.get "open_ports" result)); try (repeat split; reflexivity).
  destruct (collect_services _ _) as [names [|]]; [|repeat split; reflexivity].
  destruct (Dict.get "target_ip" result); [|repeat split; reflexivity].
  destruct (truthy _); repeat split; reflexivity.
Qed.

(** What one file does to the counters. *)
Lemma process_file_counters file s detailed :
  let s' := (process_file file (s, detailed)).1 in
  hosts_up s <= hosts_up s' /\
  hosts_down s <= hosts_down s' /\
  (hosts_up s' - hosts_up s) + (hosts_down s' - hosts_down s)
    <= total_hosts_scanned s' - total_hosts_scanned s <= 1.
Proof.
  unfold process_file.
  destruct file as [[| | | |scan_data]|]; cbn [fst snd]; try lia.
  destruct (default (PyDict []) (Dict.get "scan_result" scan_data)) as [| | | |result];
    cbn [fst snd];
    try (cbn [count_scanned total_hosts_scanned hosts_up hosts_down]; lia).
  destruct (process_result_counters scan_data result
              (count_host (status_is_up result) (count_scanned s)) detailed)
    as (H1 & H2 & H3). rewrite H1, H2, H3.
  destruct (status_is_up result);
    cbn [count_host count_scanned total_hosts_scanned hosts_up hosts_down]; lia.
Qed.

Lemma process_file_exact file s detailed :
  well_formed file = true ->
  let s' := (process_file file (s, detailed)).1 in
  total_hosts_scanned s' = total_hosts_scanned s + 1 /\
  hosts_up s' = hosts_up s + (if stored_up file then 1 else 0) /\
  hosts_down s' = hosts_down s + (if stored_up file then 0 else 1).
Proof.
  unfold process_file, well_formed, stored_up.
  destruct file as [[| | | |scan_data]|]; try discriminate.
  destruct (Dict.get "scan_result" scan_data) as [[| | | |result]|];
    try discriminate; intros _; cbn [default from_option id fst snd].
  - destruct (process_result_counters scan_data result
                (count_host (status_is_up result) (count_scanned s)) detailed)
      as (H1 & H2 & H3); rewrite H1, H2, H3.
    destruct (status_is_up result);
      cbn [count_host count_scanned total_hosts_scanned hosts_up hosts_down]; lia.
  - destruct (process_result_counters scan_data []
                (count_host (status_is_up []) (count_scanned s)) detailed)
      as (H1 & H2 & H3); rewrite H1, H2, H3.
    cbn [status_is_up Dict.get count_host count_scanned total_hosts_scanned
         hosts_up hosts_down]. lia.
Qed.

Lemma aggregate_fold files : forall st,
  let s := st.1 in
  let s' := (fold_left (fun st file => process_file file st) files st).1 in
  hosts_up s <= hosts_up s' /\
  hosts_down s <= hosts_down s' /\
  (hosts_up s' - hosts_up s) + (hosts_down s' - hosts_down s)
    <= total_hosts_scanned s' - total_hosts_scanned s <= Z.of_nat (length files).
Proof.
  induction files as [|file files IH]; intros [s detailed]; simpl; [lia|].
  pose proof (process_file_counters file s detailed) as H1.
  specialize (IH (process_file file (s, detailed))). simpl in H1, IH.
  destruct (process_file file (s, detailed)) as [s1 d1]. simpl in *. lia.
Qed.

(** X26: the counters of the aggregation, whatever the metadata files
    hold (files that cannot be read, results of the wrong shape): the
    hosts up and the hosts down never add up to more than the hosts
    scanned, and the hosts scanned to no more than the number of files. *)
Theorem X26_aggregate_counters (files : list (res pyval)) :
  let s := (aggregate files).1 in
  0 <= hosts_up s /\ 0 <= hosts_down s /\
  hosts_up s + hosts_down s <= total_hosts_scanned s <= Z.of_nat (length files).
Proof.
  pose proof (aggregate_fold files (initial_stats, [])) as H.
  unfold aggregate. simpl in *. lia.
Qed.

Lemma aggregate_exact files : forall st,
  Forall (fun f => well_formed f = true) files ->
  let s := st.1 in
  let s' := (fold_left (fun st file => process_file file st) files st).1 in
  total_hosts_scanned s' = total_hosts_scanned s + Z.of_nat (length files) /\
  hosts_up s' = hosts_up s + Z.of_nat (length (filter (fun f => stored_up f = true) files)) /\
  hosts_up s' + hosts_down s' = hosts_up s + hosts_down s + Z.of_nat (length files).
Proof.
  induction files as [|file files IH]; intros [s detailed] Hw; simpl; [lia|].
  apply Forall_cons in Hw as [Hf Hw].
  pose proof (process_file_exact file s detailed Hf) as H1.
  specialize (IH (process_file file (s, detailed)) Hw). simpl in H1, IH.
  destruct (process_file file (s, detailed)) as [s1 d1]. simpl in *.
  rewrite filter_cons. destruct (stored_up file).
  - rewrite decide_True by reflexivity. simpl length. lia.
  - rewrite decide_False by discriminate. lia.
Qed.

(** X27: when every metadata file holds a dictionary whose scan result is
    a dictionary (or has none), every file counts as one host scanned, the
    hosts up are the stored results whose host status is [up], and every
    other one counts as down: a failed scan, an error result or a result
    with a parse error only is a host that is down. *)
Theorem X27_aggregate_well_formed (files : list (res pyval)) :
  Forall (fun f => well_formed f = true) files ->
  let s := (aggregate files).1 in
  total_hosts_scanned s = Z.of_nat (length files) /\
  hosts_up s = Z.of_nat (length (filter (fun f => stored_up f = true) files)) /\
  hosts_down s = total_hosts_scanned s - hosts_up s.
Proof.
  intros Hw. pose proof (aggregate_exact files (initial_stats, []) Hw) as H.
  unfold aggregate. simpl in *. lia.
Qed.

Lemma X27_witness :
  let files :=
    [metadata_of "10.0.0.1" (AppParser.parse_nmap_xml (Ok Sample.artifact_with_ports))
       [] "2024-01-01T00:00:31";
     metadata_of "10.0.0.2" (AppParser.parse_nmap_xml (Raise "no element found"))
       [] "2024-01-01T00:01:02"] in
  total_hosts_scanned (aggregate files).1 = 2 /\
  hosts_up (aggregate files).1 = 1 /\
  hosts_down (aggregate files).1 = 1.
Proof.
  intros files.
  destruct (X27_aggregate_well_formed files) as (H1 & H2 & H3).
  - repeat constructor.
  - rewrite H3, H1, H2. repeat split; reflexivity.
Defined.

End AggregateFacts.

(** ** The sweep of abandoned scans *)

Section SweepFacts.
Import Sweep.

Lemma sweep_skips abandoned cw before : forall rest reg acc,
  Forall (fun sid => abandoned sid = false) before ->
  sweep_loop abandoned cw (before ++ rest) reg acc = sweep_loop abandoned cw rest reg acc.
Proof.
  induction before as [|sid before IH]; intros rest reg acc H; [reflexivity|].
  apply Forall_cons in H as [H1 H2]. simpl. rewrite H1. apply IH. exact H2.
Qed.

(** X28: [cleanup_abandoned_scans] stops at the first abandoned scan it
    cancels.  The cancel (or the scan thread, while the cancel sleeps)
    removes the job from the dictionary the loop is
    iterating over, so the loop raises [RuntimeError] at its next step:
    that one job is cancelled and removed, the exception leaves the
    function, and the scans that come later in the registry, abandoned or
    not, are not looked at. *)
Theorem X28_cleanup_stops_at_first_cancel (abandoned : string -> bool)
    (cw : string -> cancel_world) (before after : list string) (sid : string)
    (reg : gmap string scan_info) (info : scan_info) :
  Forall (fun s => abandoned s = false) before ->
  abandoned sid = true ->
  reg !! sid = Some info ->
  terminate_raises (cw sid) = None ->
  (still_running (cw sid) = true -> kill_raises (cw sid) = None) ->
  cleanup_abandoned_scans abandoned cw (before ++ sid :: after) reg =
    (delete sid reg, cancel_calls (process info) (still_running (cw sid)),
     Raise "dictionary changed size during iteration").
Proof.
  intros Hb Ha Hi Ht Hk. unfold cleanup_abandoned_scans.
  rewrite sweep_skips by exact Hb. cbn [sweep_loop]. rewrite Ha.
  rewrite (cancel_scan_runs (cw sid) sid reg info Hi Ht Hk).
  assert (Hs : Nat.eqb (size (delete sid reg)) (size reg) = false).
  { apply Nat.eqb_neq.
    rewrite (map_size_delete_Some sid reg) by (rewrite Hi; eauto).
    destruct (size reg) eqn:Hz; [|simpl; lia].
    apply map_size_empty_inv in Hz. subst reg. rewrite lookup_empty in Hi.
    discriminate Hi. }
  rewrite Hs. reflexivity.
Qed.

Lemma X28_witness :
  cleanup_abandoned_scans (fun sid => negb (String.eqb sid "s1")) (fun _ => Sample.stubborn)
    ["s1"; "s2"; "s3"; "s4"; "s5"] Sample.full_registry =
  (delete "s2" Sample.full_registry, [Terminate 2; Sleep 1; Poll 2; Kill 2],
   Raise "dictionary changed size during iteration").
Proof.
  apply (X28_cleanup_stops_at_first_cancel _ (fun _ => Sample.stubborn) ["s1"]
           ["s3"; "s4"; "s5"] "s2" Sample.full_registry (Sample.job 2));
    [repeat constructor | reflexivity | reflexivity | reflexivity | reflexivity].
Defined.

End SweepFacts.
